(** * OpenShot launcher (src/launch.py): a shallow embedding and its properties

    [launch.py] is the bootstrap script of OpenShot: module-level import
    guards, the one-shot tracing hook, the global [app] holder, and [main],
    which parses the command line, mutates the process-wide [info] module,
    [sys.path] and the environment, and finally builds the Qt application.

    The script is embedded as a computation in a state-and-exception monad
    over a [World] (everything the script can mutate), parameterised by a
    [Platform] (everything it only reads or calls: argparse, the file
    system, the importer, the language catalog, Qt). *)

From Stdlib Require Import ZArith List String Ascii Bool Lia.
From stdpp Require Import base gmap strings list.
Import ListNotations.

Open Scope string_scope.
Open Scope list_scope.
Open Scope Z_scope.

(** ** Python values used by the script *)

(** Exceptions that can travel through [launch.py]. [SystemExit] carries the
    argument of [sys.exit]; it derives from [BaseException] only, so an
    [except Exception] clause does not catch it. *)
Inductive exn : Type :=
| SystemExit (code : option Z)
| ImportError (msg : string)
| AttributeError (msg : string)
| TypeError (msg : string)
| IndexError (msg : string)
| RuntimeError (msg : string).

Definition is_Exception (e : exn) : bool :=
  match e with SystemExit _ => false | _ => true end.

Definition is_ImportError (e : exn) : bool :=
  match e with ImportError _ => true | _ => false end.

Definition is_AttributeError (e : exn) : bool :=
  match e with AttributeError _ => true | _ => false end.

Definition is_TypeError (e : exn) : bool :=
  match e with TypeError _ => true | _ => false end.

(** [str(ex)] for the exceptions above that carry a message. *)
Definition str_exn (e : exn) : string :=
  match e with
  | SystemExit _ => ""
  | ImportError m | AttributeError m | TypeError m
  | IndexError m | RuntimeError m => m
  end.

(** The process exit status requested by [sys.exit(code)]: no argument
    ([None]) means success. *)
Definition exit_status (code : option Z) : Z :=
  match code with None => 0 | Some c => c end.

(** Truth value of a Python [str] and of an optional [str]. *)
Definition truthy_str (s : string) : bool :=
  match s with EmptyString => false | String _ _ => true end.

Definition truthy_opt_str (o : option string) : bool :=
  match o with None => false | Some s => truthy_str s end.

Definition truthy_opt_list {A} (o : option (list A)) : bool :=
  match o with None | Some [] => false | Some (_ :: _) => true end.

(** [str.lower] on the ASCII range. *)
Definition lower_ascii (c : ascii) : ascii :=
  let n := nat_of_ascii c in
  if (Nat.leb 65 n && Nat.leb n 90)%bool then ascii_of_nat (n + 32) else c.

Fixpoint lower (s : string) : string :=
  match s with
  | EmptyString => EmptyString
  | String c s' => String (lower_ascii c) (lower s')
  end.

(** ["{:>w}".format(s)]: pad with blanks on the left up to width [w]. *)
Fixpoint blanks (n : nat) : string :=
  match n with O => "" | S n' => String " " (blanks n') end.

Definition rjust (w : nat) (s : string) : string :=
  blanks (w - String.length s) +:+ s.

(** [x in s] for two strings: [x] occurs in [s] as a contiguous block. *)
Fixpoint contains (x s : string) : bool :=
  if String.prefix x s then true
  else match s with
       | EmptyString => false
       | String _ s' => contains x s'
       end.

(** ** The parsed command line *)

(** [--web-backend] has [choices=['auto', 'webkit', 'webengine']] and
    [default='auto']: argparse admits no other value. *)
Inductive WebBackend : Type := backend_auto | backend_webkit | backend_webengine.

Definition backend_str (b : WebBackend) : string :=
  match b with
  | backend_auto => "auto"
  | backend_webkit => "webkit"
  | backend_webengine => "webengine"
  end.

(** The [argparse.Namespace] returned by [parse_known_args], one field per
    [add_argument] call, named by its [dest]. *)
Record Namespace : Type := {
  lang : option string;              (* -l/--lang, action='store' *)
  list_languages : bool;             (* --list-languages *)
  py_path : option (list string);    (* --path, action='append' *)
  modeltest : bool;                  (* --test-models *)
  web_backend : WebBackend;          (* -b/--web-backend *)
  debug : bool;                      (* -d/--debug *)
  debug_file : bool;                 (* --debug-file *)
  debug_console : bool;              (* --debug-console *)
  version : bool;                    (* -V/--version *)
  remain : list string               (* 'remain', nargs=REMAINDER *)
}.

(** ** Process-wide state *)

(** The attributes of [classes.info] that the launcher reads or writes. *)
Record Info : Type := {
  SETUP_version : string;            (* info.SETUP['version'] *)
  PATH : string;
  SUPPORTED_LANGUAGES : list string;
  LOG_LEVEL_FILE : string;
  LOG_LEVEL_CONSOLE : string;
  MODEL_TEST : bool;
  WEB_BACKEND : string;
  CMDLINE_LANGUAGE : option string
}.

(** An application object: what [OpenShotApp(argv)] returns. *)
Record App : Type := { app_argv : list string }.

(** Calls made to collaborators, in the order they happen. *)
Inductive Call : Type :=
| setAttribute (attr : string)
| init_sentry_tracing
| get_all_languages
| OpenShotApp (argv : list string)
| show_errors
| setApplicationName (name : string)
| setApplicationVersion (v : string)
| setDesktopFile (name : string)
| gui
| exec_.

Record World : Type := {
  info : Info;
  sys_path : list string;
  os_environ : gmap string string;   (* read by os.getenv *)
  process_env : gmap string string;  (* written by os.putenv *)
  stdout : list string;              (* one entry per print *)
  app : option App;                  (* the module global [app] *)
  calls : list Call
}.

(** What the script only reads or calls. *)
Record Platform : Type := {
  sys_argv : list string;
  parse_known_args : list string -> exn + (Namespace * list string);
  realpath : string -> string + string;     (* inl m: raises TypeError(m) *)
  path_exists : string -> bool;             (* os.path.exists *)
  qt_attributes : list string;              (* attributes Qt.AA_* that exist *)
  has_OpenGL : bool;
  has_QtWebEngineWidgets : bool;
  import_classes : list string -> bool;     (* is [classes] found on sys.path *)
  OPENSHOT_PATH : option string;            (* None: no module openshot_qt *)
  all_languages : list (string * string);
  OpenShotApp_raises : list string -> option exn;
  has_setDesktopFile : bool;                (* Qt 5.7+ *)
  exec_result : App -> Z
}.

(** ** Field updates *)

Definition with_info (f : Info -> Info) (w : World) : World :=
  {| info := f (info w); sys_path := sys_path w; os_environ := os_environ w;
     process_env := process_env w; stdout := stdout w; app := app w;
     calls := calls w |}.

Definition with_sys_path (f : list string -> list string) (w : World) : World :=
  {| info := info w; sys_path := f (sys_path w); os_environ := os_environ w;
     process_env := process_env w; stdout := stdout w; app := app w;
     calls := calls w |}.

Definition with_process_env (f : gmap string string -> gmap string string)
    (w : World) : World :=
  {| info := info w; sys_path := sys_path w; os_environ := os_environ w;
     process_env := f (process_env w); stdout := stdout w; app := app w;
     calls := calls w |}.

Definition with_stdout (f : list string -> list string) (w : World) : World :=
  {| info := info w; sys_path := sys_path w; os_environ := os_environ w;
     process_env := process_env w; stdout := f (stdout w); app := app w;
     calls := calls w |}.

Definition with_app (a : option App) (w : World) : World :=
  {| info := info w; sys_path := sys_path w; os_environ := os_environ w;
     process_env := process_env w; stdout := stdout w; app := a;
     calls := calls w |}.

Definition with_calls (f : list Call -> list Call) (w : World) : World :=
  {| info := info w; sys_path := sys_path w; os_environ := os_environ w;
     process_env := process_env w; stdout := stdout w; app := app w;
     calls := f (calls w) |}.

Definition set_LOG_LEVEL_FILE (v : string) (i : Info) : Info :=
  {| SETUP_version := SETUP_version i; PATH := PATH i;
     SUPPORTED_LANGUAGES := SUPPORTED_LANGUAGES i;
     LOG_LEVEL_FILE := v; LOG_LEVEL_CONSOLE := LOG_LEVEL_CONSOLE i;
     MODEL_TEST := MODEL_TEST i; WEB_BACKEND := WEB_BACKEND i;
     CMDLINE_LANGUAGE := CMDLINE_LANGUAGE i |}.

Definition set_LOG_LEVEL_CONSOLE (v : string) (i : Info) : Info :=
  {| SETUP_version := SETUP_version i; PATH := PATH i;
     SUPPORTED_LANGUAGES := SUPPORTED_LANGUAGES i;
     LOG_LEVEL_FILE := LOG_LEVEL_FILE i; LOG_LEVEL_CONSOLE := v;
     MODEL_TEST := MODEL_TEST i; WEB_BACKEND := WEB_BACKEND i;
     CMDLINE_LANGUAGE := CMDLINE_LANGUAGE i |}.

Definition set_MODEL_TEST (v : bool) (i : Info) : Info :=
  {| SETUP_version := SETUP_version i; PATH := PATH i;
     SUPPORTED_LANGUAGES := SUPPORTED_LANGUAGES i;
     LOG_LEVEL_FILE := LOG_LEVEL_FILE i;
     LOG_LEVEL_CONSOLE := LOG_LEVEL_CONSOLE i;
     MODEL_TEST := v; WEB_BACKEND := WEB_BACKEND i;
     CMDLINE_LANGUAGE := CMDLINE_LANGUAGE i |}.

Definition set_WEB_BACKEND (v : string) (i : Info) : Info :=
  {| SETUP_version := SETUP_version i; PATH := PATH i;
     SUPPORTED_LANGUAGES := SUPPORTED_LANGUAGES i;
     LOG_LEVEL_FILE := LOG_LEVEL_FILE i;
     LOG_LEVEL_CONSOLE := LOG_LEVEL_CONSOLE i;
     MODEL_TEST := MODEL_TEST i; WEB_BACKEND := v;
     CMDLINE_LANGUAGE := CMDLINE_LANGUAGE i |}.

Definition set_CMDLINE_LANGUAGE (v : option string) (i : Info) : Info :=
  {| SETUP_version := SETUP_version i; PATH := PATH i;
     SUPPORTED_LANGUAGES := SUPPORTED_LANGUAGES i;
     LOG_LEVEL_FILE := LOG_LEVEL_FILE i;
     LOG_LEVEL_CONSOLE := LOG_LEVEL_CONSOLE i;
     MODEL_TEST := MODEL_TEST i; WEB_BACKEND := WEB_BACKEND i;
     CMDLINE_LANGUAGE := v |}.

(** ** The monad of the script: state plus exceptions

    A computation takes the world and returns either a raised exception or
    a value, with the world as it was left. Nothing is rolled back when an
    exception is raised, as in Python. *)

Definition M (A : Type) : Type := World -> (exn + A) * World.

Definition ret {A} (a : A) : M A := fun w => (inr a, w).

Definition bind {A B} (m : M A) (k : A -> M B) : M B :=
  fun w =>
    match m w with
    | (inl e, w') => (inl e, w')
    | (inr a, w') => k a w'
    end.

Definition raise {A} (e : exn) : M A := fun w => (inl e, w).

Definition get : M World := fun w => (inr w, w).

Definition modify (f : World -> World) : M unit := fun w => (inr tt, f w).

(** [try: m except <catches>: h] *)
Definition try_except {A} (m : M A) (catches : exn -> bool) (h : exn -> M A)
    : M A :=
  fun w =>
    match m w with
    | (inl e, w') => if catches e then h e w' else (inl e, w')
    | r => r
    end.

Definition when (b : bool) (m : M unit) : M unit := if b then m else ret tt.

(** [for x in l: body x] *)
Fixpoint for_each {A} (l : list A) (body : A -> M unit) : M unit :=
  match l with
  | [] => ret tt
  | x :: l' => bind (body x) (fun _ => for_each l' body)
  end.

Declare Scope launch_scope.
Delimit Scope launch_scope with launch.
Notation "'let!' x ':=' m 'in' k" := (bind m (fun x => k))
  (at level 10, x name, m at level 100, k at level 200) : launch_scope.
Notation "m ';;;' k" := (bind m (fun _ => k))
  (at level 100, k at level 200, right associativity) : launch_scope.
Open Scope launch_scope.

(** ** Primitive effects *)

Definition print (line : string) : M unit :=
  modify (with_stdout (fun out => out ++ [line])).

Definition sys_exit {A} (code : option Z) : M A := raise (SystemExit code).

Definition call (c : Call) : M unit :=
  modify (with_calls (fun cs => cs ++ [c])).

Definition os_getenv (k : string) : M (option string) :=
  let! w := get in ret (os_environ w !! k).

Definition os_putenv (k v : string) : M unit :=
  modify (with_process_env (fun env => <[k := v]> env)).

Definition os_path_realpath (pf : Platform) (p : string) : M string :=
  match realpath pf p with
  | inl m => raise (TypeError m)
  | inr r => ret r
  end.

(** A method call on the global [app]: on [None] the attribute lookup
    itself raises. *)
Definition app_method (name : string) (c : Call) : M App :=
  let! w := get in
  match app w with
  | None =>
      raise (AttributeError
               ("'NoneType' object has no attribute '" +:+ name +:+ "'"))
  | Some h => call c ;;; ret h
  end.

(** ** Module level of launch.py (lines 43-83) *)

Definition pass : M unit := ret tt.

(** [QApplication.setAttribute(Qt.<attr>)]: reading a missing [Qt.<attr>]
    raises [AttributeError]. *)
Definition QApplication_setAttribute (pf : Platform) (attr : string) : M unit :=
  if bool_decide (attr ∈ qt_attributes pf) then call (setAttribute attr)
  else raise (AttributeError ("type object 'Qt' has no attribute '" +:+ attr +:+ "'")).

Definition import_or_raise (found : bool) (name : string) : M unit :=
  if found then ret tt else raise (ImportError ("No module named '" +:+ name +:+ "'")).

(** [from classes import info, exceptions] against the current [sys.path]. *)
Definition from_classes_import (pf : Platform) : M unit :=
  let! w := get in import_or_raise (import_classes pf (sys_path w)) "classes".

Definition module_level (pf : Platform) : M unit :=
  (* lines 50-56 *)
  try_except
    (QApplication_setAttribute pf "AA_ShareOpenGLContexts" ;;;
     import_or_raise (has_OpenGL pf) "OpenGL")
    (fun e => is_ImportError e || is_AttributeError e) (fun _ => pass) ;;;
  (* lines 58-64 *)
  try_except
    (import_or_raise (has_QtWebEngineWidgets pf) "PyQt5.QtWebEngineWidgets")
    is_ImportError (fun _ => pass) ;;;
  (* lines 66-70 *)
  try_except
    (QApplication_setAttribute pf "AA_EnableHighDpiScaling")
    is_AttributeError (fun _ => pass) ;;;
  (* lines 72-77 *)
  try_except
    (from_classes_import pf)
    is_ImportError
    (fun _ =>
       match OPENSHOT_PATH pf with
       | None => raise (ImportError "No module named 'openshot_qt'")
       | Some d =>
           modify (with_sys_path (fun sp => sp ++ [d])) ;;;
           from_classes_import pf
       end) ;;;
  (* line 80 *)
  call init_sentry_tracing ;;;
  (* line 83 *)
  modify (with_app None).

(** ** [main] (lines 86-198), step by step *)

(** Lines 134-138. *)
Definition set_log_levels (args : Namespace) : M unit :=
  when (debug args || debug_file args)
    (modify (with_info (set_LOG_LEVEL_FILE "DEBUG"))) ;;;
  when (debug args || debug_console args)
    (modify (with_info (set_LOG_LEVEL_CONSOLE "DEBUG"))).

(** Lines 140-145. *)
Definition show_languages (pf : Platform) : M unit :=
  print "Supported Languages:" ;;;
  call get_all_languages ;;;
  for_each (all_languages pf)
    (fun '(code, name) => print ("  " +:+ rjust 12 code +:+ "  " +:+ name)) ;;;
  sys_exit None.

(** Lines 149-157: the body of the loop over [args.py_path]. *)
Definition add_path (pf : Platform) (p : string) : M unit :=
  try_except
    (let! r := os_path_realpath pf p in
     if path_exists pf r then
       let! r1 := os_path_realpath pf p in
       modify (with_sys_path (fun sp => r1 :: sp)) ;;;
       let! r2 := os_path_realpath pf p in
       print ("Added " +:+ r2 +:+ " to PYTHONPATH")
     else
       let! r1 := os_path_realpath pf p in
       print (r1 +:+ " does not exist"))
    is_TypeError
    (fun ex => print ("Bad path " +:+ p +:+ ": " +:+ str_exn ex)).

(** Lines 147-157. *)
Definition extend_sys_path (pf : Platform) (args : Namespace) : M unit :=
  when (truthy_opt_list (py_path args))
    (for_each (default [] (py_path args)) (add_path pf)).

(** Lines 159-163. *)
Definition apply_modeltest (args : Namespace) : M unit :=
  when (modeltest args)
    (modify (with_info (set_MODEL_TEST true)) ;;;
     let! rules := os_getenv "QT_LOGGING_RULES" in
     when (bool_decide (rules = None))
       (os_putenv "QT_LOGGING_RULES" "qt.modeltest.debug=true")).

(** Lines 164-165. *)
Definition apply_web_backend (args : Namespace) : M unit :=
  when (truthy_str (backend_str (web_backend args)))
    (modify (with_info (set_WEB_BACKEND (lower (backend_str (web_backend args)))))).

(** Line 170: the text of the diagnostic. *)
Definition unsupported_message (code : string) : string :=
  "Unsupported language '" +:+ code +:+ "'! (See --list-languages)".

(** Lines 166-171. *)
Definition apply_lang (args : Namespace) : M unit :=
  when (truthy_opt_str (lang args))
    (let code := default "" (lang args) in
     let! w := get in
     if bool_decide (code ∈ SUPPORTED_LANGUAGES (info w)) then
       modify (with_info (set_CMDLINE_LANGUAGE (Some code)))
     else
       print (unsupported_message code) ;;;
       sys_exit (Some (-1))).

(** Lines 179-181: the argument vector handed to Qt. [sys.argv[0]] on an
    empty [sys.argv] raises [IndexError]. *)
Definition build_argv (pf : Platform) (args : Namespace)
    (extra_args : list string) : M (list string) :=
  match sys_argv pf with
  | [] => raise (IndexError "list index out of range")
  | argv0 :: _ => ret (([argv0] ++ extra_args) ++ remain args)
  end.

(** [OpenShotApp(argv)]: the constructor either raises or yields an object. *)
Definition new_OpenShotApp (pf : Platform) (argv : list string) : M App :=
  call (OpenShotApp argv) ;;;
  match OpenShotApp_raises pf argv with
  | Some e => raise e
  | None => ret {| app_argv := argv |}
  end.

(** Lines 182-185. The assignment to the global [app] happens only after the
    constructor has returned. *)
Definition create_app (pf : Platform) (argv : list string) : M unit :=
  try_except
    (let! h := new_OpenShotApp pf argv in modify (with_app (Some h)))
    is_Exception
    (fun _ => app_method "show_errors" show_errors ;;; ret tt).

(** Lines 187-198. *)
Definition run_app (pf : Platform) : M unit :=
  app_method "setApplicationName" (setApplicationName "openshot") ;;;
  (let! w := get in
   app_method "setApplicationVersion"
     (setApplicationVersion (SETUP_version (info w)))) ;;;
  try_except
    (let! wa := get in
     match app wa with
     | Some _ =>
         if has_setDesktopFile pf
         then call (setDesktopFile "org.openshot.OpenShot")
         else raise (AttributeError
                "'OpenShotApp' object has no attribute 'setDesktopFile'")
     | None =>
         raise (AttributeError
                "'NoneType' object has no attribute 'setDesktopFile'")
     end)
    is_AttributeError (fun _ => pass) ;;;
  app_method "gui" gui ;;;
  let! h := app_method "exec_" exec_ in
  sys_exit (Some (exec_result pf h)).

(** Line 174. *)
Definition print_module_origin : M unit :=
  let! w := get in print ("Loaded modules from: " +:+ PATH (info w)).

(** Lines 173-198: normal startup. *)
Definition start_app (pf : Platform) (args : Namespace)
    (extra_args : list string) : M unit :=
  print_module_origin ;;;
  let! argv := build_argv pf args extra_args in
  create_app pf argv ;;;
  run_app pf.

(** Lines 129-198: [main] once [parse_known_args] has returned. *)
Definition main_parsed (pf : Platform) (args : Namespace)
    (extra_args : list string) : M unit :=
  (* lines 129-132 *)
  when (version args)
    (let! w := get in print (SETUP_version (info w)) ;;; sys_exit None) ;;;
  set_log_levels args ;;;
  when (list_languages args) (show_languages pf) ;;;
  extend_sys_path pf args ;;;
  apply_modeltest args ;;;
  apply_web_backend args ;;;
  apply_lang args ;;;
  start_app pf args extra_args.

(** Line 92: [argparse.ArgumentParser(...)] takes the program name of its
    usage text from [sys.argv[0]], which raises [IndexError] when
    [sys.argv] is empty. *)
Definition ArgumentParser (pf : Platform) : M unit :=
  match sys_argv pf with
  | [] => raise (IndexError "list index out of range")
  | _ :: _ => ret tt
  end.

(** [main()]: line 92 builds the parser, line 127 parses [sys.argv[1:]];
    argparse leaves by [SystemExit] on a usage error or on [-h]. *)
Definition main (pf : Platform) : M unit :=
  ArgumentParser pf ;;;
  match parse_known_args pf (tail (sys_argv pf)) with
  | inl e => raise e
  | inr (args, extra_args) => main_parsed pf args extra_args
  end.

(** Running the file as a script: the module level, then
    [if __name__ == "__main__": main()]. *)
Definition launch (pf : Platform) : M unit :=
  module_level pf ;;; main pf.

(** ** Derived notions used in the statements *)

(** Steps 3, 5, 6 and 7 of the bootstrap: everything [main] applies between
    the early exits and the language check. *)
Definition configure (pf : Platform) (args : Namespace) : M unit :=
  set_log_levels args ;;;
  extend_sys_path pf args ;;;
  apply_modeltest args ;;;
  apply_web_backend args.

(** The language check of lines 166-171 rejects [args.lang] in world [w]. *)
Definition lang_rejected (args : Namespace) (w : World) : bool :=
  truthy_opt_str (lang args) &&
  negb (bool_decide (default "" (lang args) ∈ SUPPORTED_LANGUAGES (info w))).

(** The line printed by one iteration of the [--path] loop. *)
Definition path_report (pf : Platform) (p : string) : string :=
  match realpath pf p with
  | inl m => "Bad path " +:+ p +:+ ": " +:+ m
  | inr r =>
      if path_exists pf r then "Added " +:+ r +:+ " to PYTHONPATH"
      else r +:+ " does not exist"
  end.

(** The directories one pass over [l] inserts, in the order of [l]. *)
Fixpoint inserted_paths (pf : Platform) (l : list string) : list string :=
  match l with
  | [] => []
  | p :: l' =>
      match realpath pf p with
      | inr r => if path_exists pf r then r :: inserted_paths pf l'
                 else inserted_paths pf l'
      | inl _ => inserted_paths pf l'
      end
  end.

(** Number of calls to the tracing hook in a call log. *)
Definition tracing_calls (cs : list Call) : nat :=
  length (List.filter (fun c => match c with init_sentry_tracing => true | _ => false end) cs).

Definition is_construction (c : Call) : bool :=
  match c with OpenShotApp _ => true | _ => false end.

(** [--debug], [--debug-file] and [--debug-console] replaced in a parsed
    command line; every other option is kept. *)
Definition with_debug_flags (d f c : bool) (a : Namespace) : Namespace :=
  {| lang := lang a; list_languages := list_languages a; py_path := py_path a;
     modeltest := modeltest a; web_backend := web_backend a;
     debug := d; debug_file := f; debug_console := c;
     version := version a; remain := remain a |}.

(** ** Invariants *)

(** [preserves I m]: if [I] holds of the world before [m], it holds of the
    world [m] leaves, whether [m] returns or raises. *)
Definition preserves (I : World -> Prop) {A} (m : M A) : Prop :=
  forall w, I w -> I (snd (m w)).

(** [sys.path] in [w'] is [sys.path] of [w0] with entries put in front. *)
Definition extends_sys_path (w0 w' : World) : Prop :=
  exists added, sys_path w' = added ++ sys_path w0.

(** [sys.path] in [w'] contains [sys.path] of [w0] as a contiguous block:
    entries were only put in front of it or behind it. *)
Definition embeds_sys_path (w0 w' : World) : Prop :=
  exists added appended, sys_path w' = added ++ sys_path w0 ++ appended.

(** Relative to a starting world [w0]: the supported set is the one of [w0],
    and [info.CMDLINE_LANGUAGE] either still has the value it had in [w0]
    or holds the code given on the command line, which is supported. *)
Definition lang_written_only_if_supported (args : Namespace) (w0 w : World)
    : Prop :=
  SUPPORTED_LANGUAGES (info w) = SUPPORTED_LANGUAGES (info w0) /\
  (CMDLINE_LANGUAGE (info w) = CMDLINE_LANGUAGE (info w0) \/
   exists code, lang args = Some code /\
                code ∈ SUPPORTED_LANGUAGES (info w0) /\
                CMDLINE_LANGUAGE (info w) = Some code).

(** Relative to a starting world [w0]: every recorded constructor call is
    either one of [w0] or was made with [sys.argv[0]], then [extra_args],
    then [args.remain]. *)
Definition constructed_in_code_order (pf : Platform) (args : Namespace)
    (extra : list string) (w0 w : World) : Prop :=
  forall argv,
    In (OpenShotApp argv) (calls w) ->
    In (OpenShotApp argv) (calls w0) \/
    exists argv0 rest,
      sys_argv pf = argv0 :: rest /\ argv = [argv0] ++ extra ++ remain args.

(** ** The properties in the words of the specification

    Stated as the specification words them, to be compared with what the
    script does. *)

(** The order of the constructor's arguments in the words of the
    specification: program name, then passthrough arguments (the [remain]
    positional), then unrecognized arguments ([extra_args]). *)
Definition spec_argv (argv0 : string) (passthrough unrecognized : list string)
    : list string :=
  [argv0] ++ passthrough ++ unrecognized.

(** The version property in the words of the specification: exit 0, no
    module-path mutation, no tracing-hook call, no construction, over the
    whole run of the script. *)
Definition version_run_has_no_setup (pf : Platform) (w : World) : Prop :=
  forall args extra,
    parse_known_args pf (tail (sys_argv pf)) = inr (args, extra) ->
    version args = true ->
    fst (launch pf w) = inl (SystemExit None) /\
    sys_path (snd (launch pf w)) = sys_path w /\
    tracing_calls (calls (snd (launch pf w))) = tracing_calls (calls w) /\
    List.filter is_construction (calls (snd (launch pf w))) =
      List.filter is_construction (calls w).

(** The fail-fast property in the words of the specification: an unsupported
    language code leaves the module search path, the model-test flag, the
    environment and the web-backend selection as they were. *)
Definition bad_lang_has_no_side_effect (pf : Platform) (args : Namespace)
    (extra : list string) (w : World) : Prop :=
  forall code,
    lang args = Some code -> code ∉ SUPPORTED_LANGUAGES (info w) ->
    sys_path (snd (main_parsed pf args extra w)) = sys_path w /\
    MODEL_TEST (info (snd (main_parsed pf args extra w))) = MODEL_TEST (info w) /\
    process_env (snd (main_parsed pf args extra w)) = process_env w /\
    WEB_BACKEND (info (snd (main_parsed pf args extra w))) = WEB_BACKEND (info w).

(** The exit property in the words of the specification: every code outside
    the supported set ends the run with -1 and a message containing it. *)
Definition bad_lang_exits_minus_1 (pf : Platform) (args : Namespace)
    (extra : list string) (w : World) : Prop :=
  forall code,
    lang args = Some code -> code ∉ SUPPORTED_LANGUAGES (info w) ->
    fst (main_parsed pf args extra w) = inl (SystemExit (Some (-1))) /\
    exists line,
      In line (stdout (snd (main_parsed pf args extra w))) /\
      contains code line = true.

(** The order in the words of the specification. *)
Definition constructed_in_spec_order (pf : Platform) (args : Namespace)
    (extra : list string) (w : World) : Prop :=
  forall argv,
    In (OpenShotApp argv) (calls (snd (main_parsed pf args extra w))) ->
    ~ In (OpenShotApp argv) (calls w) ->
    exists argv0 rest,
      sys_argv pf = argv0 :: rest /\ argv = spec_argv argv0 (remain args) extra.

(** The priority property in the words of the specification: on every run,
    for [--path] arguments [A] then [B] that both resolve to existing
    paths, [sys.path] afterwards has the resolved [B] somewhere ahead of
    the resolved [A]. *)
Definition later_path_wins_on_every_run (pf : Platform) (args : Namespace)
    (extra : list string) (w : World) : Prop :=
  forall before between after A B rA rB,
    py_path args = Some (before ++ A :: between ++ B :: after) ->
    realpath pf A = inr rA -> path_exists pf rA = true ->
    realpath pf B = inr rB -> path_exists pf rB = true ->
    exists l1 l2 l3,
      sys_path (snd (main_parsed pf args extra w)) = l1 ++ rB :: l2 ++ rA :: l3.

(** The diagnostic in the words of the specification: some printed line
    names the path exactly as it was given. *)
Definition missing_path_named_as_given (pf : Platform) (args : Namespace)
    (extra : list string) (w : World) : Prop :=
  forall p r,
    In p (default [] (py_path args)) ->
    realpath pf p = inr r -> path_exists pf r = false ->
    exists line,
      In line (stdout (snd (main_parsed pf args extra w))) /\
      contains p line = true.

(** ** A concrete installation, for running the script

    Sample values: a version string, three languages, two existing
    directories. The properties below hold for every installation; this
    one serves to run the script on explicit command lines. *)

Definition demo_info : Info :=
  {| SETUP_version := "2.5.1";
     PATH := "/usr/lib/python3/dist-packages/openshot_qt";
     SUPPORTED_LANGUAGES := ["en_US"; "es_ES"; "fr_FR"];
     LOG_LEVEL_FILE := "INFO"; LOG_LEVEL_CONSOLE := "INFO";
     MODEL_TEST := false; WEB_BACKEND := "auto";
     CMDLINE_LANGUAGE := None |}.

(** The world when the interpreter starts executing [launch.py]. *)
Definition demo_world : World :=
  {| info := demo_info;
     sys_path := ["/usr/lib/python3"; "/usr/lib/python3/dist-packages"];
     os_environ := ∅; process_env := ∅; stdout := []; app := None;
     calls := [] |}.

(** Run from [/home/user]: relative names resolve against it and [..] is
    collapsed. *)
Definition demo_realpath (p : string) : string + string :=
  if String.eqb p "plugins/../mods" then inr "/home/user/mods"
  else if String.prefix "/" p then inr p
  else inr ("/home/user/" +:+ p).

(** Only [/opt/plugins] and [/opt/effects] exist. *)
Definition demo_exists (r : string) : bool :=
  existsb (String.eqb r) ["/opt/plugins"; "/opt/effects"].

(** A platform on which [parse_known_args] yields [(args, extra)] for the
    command line [argv] and the constructor behaves as [ctor] says. *)
Definition demo_platform (argv : list string) (args : Namespace)
    (extra : list string) (ctor : option exn) : Platform :=
  {| sys_argv := argv;
     parse_known_args := fun _ => inr (args, extra);
     realpath := demo_realpath;
     path_exists := demo_exists;
     qt_attributes := ["AA_ShareOpenGLContexts"; "AA_EnableHighDpiScaling"];
     has_OpenGL := true;
     has_QtWebEngineWidgets := true;
     import_classes := fun _ => true;
     OPENSHOT_PATH := None;
     all_languages := [("en_US", "English (US)"); ("es_ES", "Spanish");
                       ("fr_FR", "French")];
     OpenShotApp_raises := fun _ => ctor;
     has_setDesktopFile := true;
     exec_result := fun _ => 0 |}.

(** The namespace of a command line without options. *)
Definition no_options : Namespace :=
  {| lang := None; list_languages := false; py_path := None;
     modeltest := false; web_backend := backend_auto; debug := false;
     debug_file := false; debug_console := false; version := false;
     remain := [] |}.

Definition with_version (a : Namespace) : Namespace :=
  {| lang := lang a; list_languages := list_languages a; py_path := py_path a;
     modeltest := modeltest a; web_backend := web_backend a;
     debug := debug a; debug_file := debug_file a;
     debug_console := debug_console a; version := true; remain := remain a |}.

Definition with_lang (code : string) (a : Namespace) : Namespace :=
  {| lang := Some code; list_languages := list_languages a;
     py_path := py_path a; modeltest := modeltest a;
     web_backend := web_backend a; debug := debug a;
     debug_file := debug_file a; debug_console := debug_console a;
     version := version a; remain := remain a |}.

Definition with_py_path (l : list string) (a : Namespace) : Namespace :=
  {| lang := lang a; list_languages := list_languages a; py_path := Some l;
     modeltest := modeltest a; web_backend := web_backend a;
     debug := debug a; debug_file := debug_file a;
     debug_console := debug_console a; version := version a;
     remain := remain a |}.

Definition with_remain (l : list string) (a : Namespace) : Namespace :=
  {| lang := lang a; list_languages := list_languages a; py_path := py_path a;
     modeltest := modeltest a; web_backend := web_backend a;
     debug := debug a; debug_file := debug_file a;
     debug_console := debug_console a; version := version a; remain := l |}.

(** [--test-models --web-backend webkit]. *)
Definition with_models_webkit (a : Namespace) : Namespace :=
  {| lang := lang a; list_languages := list_languages a; py_path := py_path a;
     modeltest := true; web_backend := backend_webkit;
     debug := debug a; debug_file := debug_file a;
     debug_console := debug_console a; version := version a;
     remain := remain a |}.

(** [launch.py --version] *)
Definition version_platform : Platform :=
  demo_platform ["launch.py"; "--version"] (with_version no_options) [] None.

(** [launch.py --path /opt/plugins --test-models -b webkit --lang xx] *)
Definition bad_lang_args : Namespace :=
  with_lang "xx" (with_models_webkit (with_py_path ["/opt/plugins"] no_options)).

Definition bad_lang_platform : Platform :=
  demo_platform
    ["launch.py"; "--path"; "/opt/plugins"; "--test-models"; "-b"; "webkit";
     "--lang"; "xx"]
    bad_lang_args [] None.

(** [launch.py --lang ''] *)
Definition empty_lang_platform : Platform :=
  demo_platform ["launch.py"; "--lang"; ""] (with_lang "" no_options) [] None.

(** [launch.py --path /opt/plugins --path /opt/effects] *)
Definition two_paths_args : Namespace :=
  with_py_path ["/opt/plugins"; "/opt/effects"] no_options.

Definition two_paths_platform : Platform :=
  demo_platform
    ["launch.py"; "--path"; "/opt/plugins"; "--path"; "/opt/effects"]
    two_paths_args [] None.

(** [launch.py --list-languages --path /opt/plugins --path /opt/effects] *)
Definition listing_two_paths_args : Namespace :=
  {| lang := None; list_languages := true;
     py_path := Some ["/opt/plugins"; "/opt/effects"]; modeltest := false;
     web_backend := backend_auto; debug := false; debug_file := false;
     debug_console := false; version := false; remain := [] |}.

Definition listing_two_paths_platform : Platform :=
  demo_platform
    ["launch.py"; "--list-languages"; "--path"; "/opt/plugins"; "--path";
     "/opt/effects"]
    listing_two_paths_args [] None.

(** [launch.py -style fusion]: argparse does not know [-style], which goes
    to [extra_args]; [fusion] is taken by the [remain] positional. *)
Definition style_args : Namespace := with_remain ["fusion"] no_options.

Definition style_platform : Platform :=
  demo_platform ["launch.py"; "-style"; "fusion"] style_args ["-style"] None.

(** [launch.py --path plugins/../mods --path /opt/effects], run from
    [/home/user], where there is no [mods] directory. *)
Definition missing_path_args : Namespace :=
  with_py_path ["plugins/../mods"; "/opt/effects"] no_options.

Definition missing_path_platform : Platform :=
  demo_platform
    ["launch.py"; "--path"; "plugins/../mods"; "--path"; "/opt/effects"]
    missing_path_args [] None.

(** [launch.py] on a machine where the Qt application cannot be built. *)
Definition failing_platform : Platform :=
  demo_platform ["launch.py"] no_options []
    (Some (RuntimeError "could not connect to display")).

(** ** Further notions, for the rest of the script *)

(** Line 144: the line printed for one catalog entry. *)
Definition language_line (entry : string * string) : string :=
  "  " +:+ rjust 12 (fst entry) +:+ "  " +:+ snd entry.

(** [m] never returns normally: from every world it ends by raising. *)
Definition never_returns {A} (m : M A) : Prop :=
  forall w, exists e, fst (m w) = inl e.

(** Number of constructor calls in a call log. *)
Definition constructions (cs : list Call) : nat :=
  length (List.filter is_construction cs).

(** Lines 72-77 find the [classes] package: on [sys.path] as it is, or
    after the install directory of [openshot_qt] has been appended. *)
Definition classes_reachable (pf : Platform) (w : World) : bool :=
  import_classes pf (sys_path w) ||
  match OPENSHOT_PATH pf with
  | Some d => import_classes pf (sys_path w ++ [d])
  | None => false
  end.

(** The calls of lines 183-198 when the constructor succeeds. *)
Definition startup_calls (pf : Platform) (argv : list string) (v : string)
    : list Call :=
  [OpenShotApp argv; setApplicationName "openshot"; setApplicationVersion v] ++
  (if has_setDesktopFile pf then [setDesktopFile "org.openshot.OpenShot"] else []) ++
  [gui; exec_].

(** The attributes of [info] that the launcher only reads. *)
Definition same_constants (w0 w : World) : Prop :=
  os_environ w = os_environ w0 /\
  SETUP_version (info w) = SETUP_version (info w0) /\
  PATH (info w) = PATH (info w0) /\
  SUPPORTED_LANGUAGES (info w) = SUPPORTED_LANGUAGES (info w0).

(** A source checkout: [classes] is found only once the install directory
    is on [sys.path], and Qt is older than 5.7. *)
Definition checkout_platform : Platform :=
  {| sys_argv := ["launch.py"; "project.osp"];
     parse_known_args := fun _ => inr (with_remain ["project.osp"] no_options, []);
     realpath := demo_realpath;
     path_exists := demo_exists;
     qt_attributes := ["AA_ShareOpenGLContexts"];
     has_OpenGL := false;
     has_QtWebEngineWidgets := false;
     import_classes := fun sp => bool_decide ("/opt/openshot_qt" ∈ sp);
     OPENSHOT_PATH := Some "/opt/openshot_qt";
     all_languages := [("en_US", "English (US)")];
     OpenShotApp_raises := fun _ => None;
     has_setDesktopFile := false;
     exec_result := fun _ => 3 |}.

(** A platform whose [os.path.realpath] rejects the entry [bad]. *)
Definition typeerror_platform : Platform :=
  {| sys_argv := ["launch.py"; "--path"; "bad"; "--path"; "/opt/effects"];
     parse_known_args :=
       fun _ => inr (with_py_path ["bad"; "/opt/effects"] no_options, []);
     realpath := fun p => if String.eqb p "bad"
                          then inl "expected str, bytes or os.PathLike object"
                          else demo_realpath p;
     path_exists := demo_exists;
     qt_attributes := ["AA_ShareOpenGLContexts"; "AA_EnableHighDpiScaling"];
     has_OpenGL := true;
     has_QtWebEngineWidgets := true;
     import_classes := fun _ => true;
     OPENSHOT_PATH := None;
     all_languages := [("en_US", "English (US)")];
     OpenShotApp_raises := fun _ => None;
     has_setDesktopFile := true;
     exec_result := fun _ => 0 |}.

(** [launch.py --list-languages --path /opt/plugins --lang xx] *)
Definition list_args : Namespace :=
  {| lang := Some "xx"; list_languages := true;
     py_path := Some ["/opt/plugins"]; modeltest := false;
     web_backend := backend_auto; debug := false; debug_file := false;
     debug_console := false; version := false; remain := [] |}.

(** [launch.py --test-models --debug-file --lang es_ES] *)
Definition models_args : Namespace :=
  {| lang := Some "es_ES"; list_languages := false; py_path := None;
     modeltest := true; web_backend := backend_auto; debug := false;
     debug_file := true; debug_console := false; version := false;
     remain := [] |}.

(** A world in which the user has set [QT_LOGGING_RULES] already. *)
Definition rules_world : World :=
  {| info := demo_info;
     sys_path := ["/usr/lib/python3"];
     os_environ := {["QT_LOGGING_RULES" := "*.debug=false"]};
     process_env := {["QT_LOGGING_RULES" := "*.debug=false"]};
     stdout := []; app := None; calls := [] |}.

(** A world in which [app] already holds an application object. *)
Definition stale_world : World :=
  {| info := demo_info;
     sys_path := ["/usr/lib/python3"];
     os_environ := ∅; process_env := ∅; stdout := [];
     app := Some {| app_argv := ["launch.py"; "first.osp"] |};
     calls := [] |}.

(** ** Running a sequence *)

Lemma bind_ok {A B} (m : M A) (k : A -> M B) w a :
  fst (m w) = inr a -> bind m k w = k a (snd (m w)).
Proof. unfold bind. destruct (m w) as [[e|x] w']; simpl; congruence. Qed.

Lemma bind_err {A B} (m : M A) (k : A -> M B) w e :
  fst (m w) = inl e -> bind m k w = (inl e, snd (m w)).
Proof. unfold bind. destruct (m w) as [[e'|x] w']; simpl; congruence. Qed.

(** [main] by cases on [sys.argv] and on what argparse returns. *)
Lemma main_run pf w :
  main pf w =
  match sys_argv pf with
  | [] => (inl (IndexError "list index out of range"), w)
  | _ :: rest =>
      match parse_known_args pf rest with
      | inl e => (inl e, w)
      | inr (args, extra) => main_parsed pf args extra w
      end
  end.
Proof.
  unfold main, ArgumentParser, bind.
  destruct (sys_argv pf) as [|argv0 rest]; simpl; [reflexivity|].
  destruct (parse_known_args pf rest) as [e|[args extra]]; reflexivity.
Qed.

(** One iteration of the [--path] loop never raises: it prints one line and
    inserts at most one directory at the front of [sys.path]. *)
Lemma add_path_run pf p w :
  add_path pf p w =
  (inr tt,
   with_stdout (fun out => out ++ [path_report pf p])
     (with_sys_path (fun sp => rev (inserted_paths pf [p]) ++ sp) w)).
Proof.
  unfold add_path, try_except, path_report, os_path_realpath. simpl.
  destruct (realpath pf p) as [m|r]; simpl.
  - destruct w; reflexivity.
  - unfold bind; simpl. destruct (path_exists pf r); simpl.
    + destruct w; reflexivity.
    + destruct w; reflexivity.
Qed.

(** The whole loop: one report per entry, in order, and the inserted
    directories in front of the old [sys.path], last inserted first. *)
Lemma for_each_add_path_run pf l w :
  for_each l (add_path pf) w =
  (inr tt,
   with_stdout (fun out => out ++ map (path_report pf) l)
     (with_sys_path (fun sp => rev (inserted_paths pf l) ++ sp) w)).
Proof.
  revert w. induction l as [|p l IH]; intros w.
  - simpl. unfold ret. destruct w; unfold with_stdout, with_sys_path; simpl.
    by rewrite app_nil_r.
  - change (for_each (p :: l) (add_path pf))
      with (bind (add_path pf p) (fun _ => for_each l (add_path pf))).
    rewrite (bind_ok _ _ w tt) by (by rewrite add_path_run).
    rewrite add_path_run, IH. simpl snd.
    destruct w; unfold with_stdout, with_sys_path; simpl.
    do 2 f_equal.
    + destruct (realpath pf p) as [m|r]; [reflexivity|].
      destruct (path_exists pf r); [|reflexivity].
      simpl. by rewrite <- app_assoc.
    + by rewrite <- app_assoc.
Qed.

(** ** Rules for invariants

    One rule per construct of the monad; an invariant of the primitive
    effects of a computation is an invariant of the computation. *)

Section Invariant.
Variable I : World -> Prop.

Lemma preserves_ret {A} (a : A) : preserves I (ret a).
Proof. intros w H; exact H. Qed.

Lemma preserves_raise {A} (e : exn) : preserves I (@raise A e).
Proof. intros w H; exact H. Qed.

Lemma preserves_get : preserves I get.
Proof. intros w H; exact H. Qed.

Lemma preserves_modify (f : World -> World) :
  (forall w, I w -> I (f w)) -> preserves I (modify f).
Proof. intros Hf w H; simpl; auto. Qed.

Lemma preserves_bind {A B} (m : M A) (k : A -> M B) :
  preserves I m -> (forall a, preserves I (k a)) -> preserves I (bind m k).
Proof.
  intros Hm Hk w H. unfold bind. specialize (Hm w H).
  destruct (m w) as [[e|a] w']; simpl in *; [exact Hm|].
  apply Hk, Hm.
Qed.

Lemma preserves_try_except {A} (m : M A) catches (h : exn -> M A) :
  preserves I m -> (forall e, preserves I (h e)) -> preserves I (try_except m catches h).
Proof.
  intros Hm Hh w H. unfold try_except. specialize (Hm w H).
  destruct (m w) as [[e|a] w']; simpl in *; [|exact Hm].
  destruct (catches e); [apply Hh, Hm | exact Hm].
Qed.

Lemma preserves_when (b : bool) (m : M unit) :
  preserves I m -> preserves I (when b m).
Proof. intros Hm. destruct b; [exact Hm | apply preserves_ret]. Qed.

Lemma preserves_for_each {A} (l : list A) (body : A -> M unit) :
  (forall x, preserves I (body x)) -> preserves I (for_each l body).
Proof.
  intros Hb. induction l as [|x l IH]; simpl.
  - apply preserves_ret.
  - apply preserves_bind; [apply Hb | intros _; exact IH].
Qed.

Lemma preserves_bind_ret {A B} (a : A) (k : A -> M B) :
  preserves I (k a) -> preserves I (bind (ret a) k).
Proof. intros Hk w H. exact (Hk w H). Qed.

Lemma preserves_bind_raise {A B} (e : exn) (k : A -> M B) :
  preserves I (bind (raise e) k).
Proof. intros w H. exact H. Qed.

(** After [m] has established [I], a continuation that preserves it
    leaves it established. *)
Lemma bind_post {A B} (m : M A) (k : A -> M B) w :
  I (snd (m w)) -> (forall a, preserves I (k a)) -> I (snd (bind m k w)).
Proof.
  intros Hm Hk. unfold bind.
  destruct (m w) as [[e|a] w']; simpl in *; [exact Hm|].
  apply Hk, Hm.
Qed.
End Invariant.

(** Break a computation of the script into its primitive effects; [leaf]
    proves that a single [modify] keeps the invariant. *)
Ltac unfold_script :=
  unfold print, call, sys_exit, pass, os_getenv, os_putenv, os_path_realpath,
    app_method, QApplication_setAttribute, import_or_raise,
    from_classes_import, set_log_levels, show_languages, add_path,
    extend_sys_path, apply_modeltest, apply_web_backend, apply_lang,
    build_argv, new_OpenShotApp, create_app, run_app, print_module_origin,
    start_app.

Ltac preserves_with leaf :=
  repeat first
    [ assumption
    | apply preserves_ret
    | apply preserves_raise
    | apply preserves_get
    | apply preserves_modify; leaf
    | apply preserves_bind; [|intros ?]
    | apply preserves_try_except; [|intros ?]
    | apply preserves_when
    | apply preserves_for_each; intros ?
    | match goal with
      | |- preserves _ (match ?x with _ => _ end) => destruct x
      end
    | progress cbv beta
    | progress unfold_script ].

(** ** The module search path *)

Ltac sys_path_leaf :=
  let l := fresh "l" in
  let Hl := fresh "Hl" in
  intros ? [l Hl]; unfold extends_sys_path; simpl;
  first [ exists l; exact Hl
        | eexists (_ :: l); rewrite Hl; reflexivity ].

Lemma main_parsed_extends_sys_path w0 pf args extra :
  preserves (extends_sys_path w0) (main_parsed pf args extra).
Proof. unfold main_parsed. preserves_with sys_path_leaf. Qed.

Ltac embeds_leaf :=
  let pre := fresh "pre" in
  let post := fresh "post" in
  let Hsp := fresh "Hsp" in
  intros ? (pre & post & Hsp); unfold embeds_sys_path; simpl;
  first [ exists pre, post; exact Hsp
        | eexists (_ :: pre), post; rewrite Hsp; reflexivity
        | eexists pre, (post ++ [_]); rewrite Hsp; by rewrite <- !app_assoc ].

Lemma main_embeds_sys_path w0 pf :
  preserves (embeds_sys_path w0) (main pf).
Proof.
  intros w H. rewrite main_run.
  destruct (sys_argv pf) as [|argv0 rest]; [exact H|].
  destruct (parse_known_args pf rest) as [e|[args extra]].
  - exact H.
  - revert w H. change (preserves (embeds_sys_path w0) (main_parsed pf args extra)).
    unfold main_parsed. preserves_with embeds_leaf.
Qed.

Lemma launch_embeds_sys_path w0 pf :
  preserves (embeds_sys_path w0) (launch pf).
Proof.
  pose proof (main_embeds_sys_path w0 pf).
  unfold launch, module_level. preserves_with embeds_leaf.
Qed.

(** C9. The [--path] step only prepends: whatever the command line, however
    [main] ends (early exit, language failure, exception or event loop),
    [sys.path] afterwards is the old [sys.path] with entries added in front;
    no old entry is removed or reordered. Over the whole script, module
    level included, the old [sys.path] is still there as one block. *)
Theorem main_only_prepends_to_sys_path (pf : Platform) (w : World) :
  (exists added, sys_path (snd (main pf w)) = added ++ sys_path w) /\
  (exists added appended,
     sys_path (snd (launch pf w)) = added ++ sys_path w ++ appended).
Proof.
  split.
  - assert (H0 : extends_sys_path w w) by (exists []; reflexivity).
    rewrite main_run.
    destruct (sys_argv pf) as [|argv0 rest]; [exact H0|].
    destruct (parse_known_args pf rest) as [e|[args extra]].
    + exact H0.
    + exact (main_parsed_extends_sys_path w pf args extra w H0).
  - apply (launch_embeds_sys_path w pf w).
    exists [], []. by rewrite app_nil_r.
Qed.

(** ** The configuration steps *)

Lemma extend_sys_path_run pf args w :
  extend_sys_path pf args w =
  (inr tt,
   with_stdout (fun out => out ++ map (path_report pf) (default [] (py_path args)))
     (with_sys_path
        (fun sp => rev (inserted_paths pf (default [] (py_path args))) ++ sp) w)).
Proof.
  unfold extend_sys_path.
  destruct (py_path args) as [[|p l]|]; simpl;
    try (unfold ret; destruct w; unfold with_stdout, with_sys_path; simpl;
         by rewrite app_nil_r).
  apply (for_each_add_path_run pf (p :: l) w).
Qed.

Ltac run_configure pf args w :=
  unfold configure, set_log_levels, apply_modeltest, apply_web_backend,
    os_getenv, os_putenv, bind;
  destruct (debug args), (debug_file args), (debug_console args); simpl;
  rewrite extend_sys_path_run; simpl;
  destruct (modeltest args); simpl;
  try destruct (os_environ w !! "QT_LOGGING_RULES"); simpl;
  try destruct (web_backend args); simpl.

(** None of the configuration steps raises. *)
Lemma set_log_levels_ok args w : fst (set_log_levels args w) = inr tt.
Proof.
  unfold set_log_levels, bind.
  destruct (debug args), (debug_file args), (debug_console args); reflexivity.
Qed.

Lemma extend_sys_path_ok pf args w : fst (extend_sys_path pf args w) = inr tt.
Proof. by rewrite extend_sys_path_run. Qed.

Lemma apply_modeltest_ok args w : fst (apply_modeltest args w) = inr tt.
Proof.
  unfold apply_modeltest, os_getenv, bind.
  destruct (modeltest args); simpl; [|reflexivity].
  destruct (os_environ w !! "QT_LOGGING_RULES"); reflexivity.
Qed.

Lemma apply_web_backend_ok args w : fst (apply_web_backend args w) = inr tt.
Proof. unfold apply_web_backend. destruct (web_backend args); reflexivity. Qed.

Lemma configure_ok pf args w : fst (configure pf args w) = inr tt.
Proof. run_configure pf args w; reflexivity. Qed.

(** What the configuration steps leave alone, and what they print and insert. *)
Lemma configure_frame pf args w :
  let w1 := snd (configure pf args w) in
  sys_path w1 = rev (inserted_paths pf (default [] (py_path args))) ++ sys_path w /\
  stdout w1 = stdout w ++ map (path_report pf) (default [] (py_path args)) /\
  calls w1 = calls w /\ app w1 = app w /\ os_environ w1 = os_environ w /\
  SUPPORTED_LANGUAGES (info w1) = SUPPORTED_LANGUAGES (info w) /\
  CMDLINE_LANGUAGE (info w1) = CMDLINE_LANGUAGE (info w) /\
  PATH (info w1) = PATH (info w) /\
  SETUP_version (info w1) = SETUP_version (info w).
Proof. run_configure pf args w; repeat split; reflexivity. Qed.

(** What the configuration steps write. *)
Lemma configure_effect pf args w :
  let w1 := snd (configure pf args w) in
  LOG_LEVEL_FILE (info w1) =
    (if debug args || debug_file args then "DEBUG" else LOG_LEVEL_FILE (info w)) /\
  LOG_LEVEL_CONSOLE (info w1) =
    (if debug args || debug_console args then "DEBUG" else LOG_LEVEL_CONSOLE (info w)) /\
  MODEL_TEST (info w1) = (if modeltest args then true else MODEL_TEST (info w)) /\
  WEB_BACKEND (info w1) = backend_str (web_backend args) /\
  process_env w1 =
    (if modeltest args && bool_decide (os_environ w !! "QT_LOGGING_RULES" = None)
     then <["QT_LOGGING_RULES" := "qt.modeltest.debug=true"]> (process_env w)
     else process_env w).
Proof. run_configure pf args w; repeat split; reflexivity. Qed.

(** Past the two early exits, [main] is the configuration steps followed by
    the language check and the normal startup. *)
Lemma main_parsed_configured pf args extra w :
  version args = false -> list_languages args = false ->
  main_parsed pf args extra w =
  (apply_lang args ;;; start_app pf args extra) (snd (configure pf args w)).
Proof.
  intros Hv Hl. unfold main_parsed, configure. rewrite Hv, Hl. unfold when.
  rewrite (bind_ok (ret tt) _ w tt eq_refl). simpl snd.
  rewrite !(bind_ok (set_log_levels args) _ w tt (set_log_levels_ok args w)).
  set (w1 := snd (set_log_levels args w)).
  rewrite (bind_ok (ret tt) _ w1 tt eq_refl). simpl snd.
  rewrite !(bind_ok (extend_sys_path pf args) _ w1 tt (extend_sys_path_ok pf args w1)).
  set (w2 := snd (extend_sys_path pf args w1)).
  rewrite !(bind_ok (apply_modeltest args) _ w2 tt (apply_modeltest_ok args w2)).
  set (w3 := snd (apply_modeltest args w2)).
  rewrite (bind_ok (apply_web_backend args) _ w3 tt (apply_web_backend_ok args w3)).
  reflexivity.
Qed.

(** ** The language check *)

Lemma truthy_str_nonempty (s : string) : s <> "" -> truthy_str s = true.
Proof. destruct s; [congruence | reflexivity]. Qed.

Lemma apply_lang_rejects args w code :
  lang args = Some code -> code <> "" ->
  code ∉ SUPPORTED_LANGUAGES (info w) ->
  apply_lang args w =
  (inl (SystemExit (Some (-1))),
   with_stdout (fun out => out ++ [unsupported_message code]) w).
Proof.
  intros Hl Hne Hnot. unfold apply_lang. rewrite Hl. simpl.
  rewrite (truthy_str_nonempty code Hne). simpl. unfold bind. simpl.
  by rewrite (bool_decide_eq_false_2 _ Hnot).
Qed.

Lemma apply_lang_accepts args w :
  lang_rejected args w = false -> fst (apply_lang args w) = inr tt.
Proof.
  unfold lang_rejected, apply_lang. intros H.
  destruct (truthy_opt_str (lang args)); simpl in *; [|reflexivity].
  unfold bind; simpl.
  destruct (bool_decide (default "" (lang args) ∈ SUPPORTED_LANGUAGES (info w)));
    [reflexivity | discriminate].
Qed.

(** ** Fields that later steps leave alone *)

Ltac same_field_leaf := intros ? ?; simpl; assumption.

Lemma startup_keeps_sys_path (X : list string) pf args extra :
  preserves (fun w => sys_path w = X) (apply_lang args ;;; start_app pf args extra).
Proof. preserves_with same_field_leaf. Qed.

Ltac grows_leaf :=
  let H := fresh in
  intros ? H; simpl; first [exact H | apply in_or_app; left; exact H].

(** Printed lines and recorded calls are never taken back. *)
Lemma startup_keeps_printed (line : string) pf args extra :
  preserves (fun w => In line (stdout w)) (apply_lang args ;;; start_app pf args extra).
Proof. preserves_with grows_leaf. Qed.

Lemma run_app_keeps_calls (c : Call) pf :
  preserves (fun w => In c (calls w)) (run_app pf).
Proof. preserves_with grows_leaf. Qed.

Lemma after_log_levels_keeps_levels (f c : string) pf args extra :
  preserves (fun w => LOG_LEVEL_FILE (info w) = f /\ LOG_LEVEL_CONSOLE (info w) = c)
    (when (list_languages args) (show_languages pf) ;;;
     extend_sys_path pf args ;;; apply_modeltest args ;;;
     apply_web_backend args ;;; apply_lang args ;;; start_app pf args extra).
Proof. preserves_with same_field_leaf. Qed.

(** ** Strings *)

Lemma prefix_append (x b : string) : String.prefix x (x +:+ b) = true.
Proof.
  induction x as [|c x IH]; simpl.
  - destruct b; reflexivity.
  - destruct (ascii_dec c c); [exact IH | congruence].
Qed.

Lemma contains_unfold (x s : string) :
  contains x s =
  if String.prefix x s then true
  else match s with EmptyString => false | String _ s' => contains x s' end.
Proof. destruct s; reflexivity. Qed.

Lemma contains_append (x a b : string) : contains x (a +:+ x +:+ b) = true.
Proof.
  induction a as [|c a IH].
  - change ("" +:+ x +:+ b) with (x +:+ b).
    rewrite contains_unfold. by rewrite prefix_append.
  - change (String c a +:+ x +:+ b) with (String c (a +:+ x +:+ b)).
    rewrite contains_unfold.
    destruct (String.prefix x (String c (a +:+ x +:+ b))); [reflexivity | exact IH].
Qed.

(** ** Inserted directories *)

Lemma inserted_paths_app pf l1 l2 :
  inserted_paths pf (l1 ++ l2) = inserted_paths pf l1 ++ inserted_paths pf l2.
Proof.
  induction l1 as [|p l1 IH]; simpl; [reflexivity|].
  destruct (realpath pf p) as [m|r]; [exact IH|].
  destruct (path_exists pf r); [|exact IH].
  simpl. by rewrite IH.
Qed.

Lemma inserted_paths_existing pf p r l :
  realpath pf p = inr r -> path_exists pf r = true ->
  inserted_paths pf (p :: l) = r :: inserted_paths pf l.
Proof. intros Hr He. simpl. by rewrite Hr, He. Qed.

(** Past the early exits, [sys.path] at the end of [main] is the one the
    [--path] loop left. *)
Lemma main_parsed_sys_path pf args extra w :
  version args = false -> list_languages args = false ->
  sys_path (snd (main_parsed pf args extra w)) =
  rev (inserted_paths pf (default [] (py_path args))) ++ sys_path w.
Proof.
  intros Hv Hl. rewrite (main_parsed_configured pf args extra w Hv Hl).
  rewrite (startup_keeps_sys_path _ pf args extra _ eq_refl).
  apply configure_frame.
Qed.

(** Past the early exits, every report of the [--path] loop is on the
    output at the end of [main]. *)
Lemma main_parsed_reports pf args extra w p :
  version args = false -> list_languages args = false ->
  In p (default [] (py_path args)) ->
  In (path_report pf p) (stdout (snd (main_parsed pf args extra w))).
Proof.
  intros Hv Hl Hin. rewrite (main_parsed_configured pf args extra w Hv Hl).
  apply startup_keeps_printed.
  destruct (configure_frame pf args w) as (_ & Hout & _). rewrite Hout.
  apply in_or_app. right. by apply in_map.
Qed.

(** ** The version query *)

Lemma tracing_calls_app (a b : list Call) :
  tracing_calls (a ++ b) = (tracing_calls a + tracing_calls b)%nat.
Proof. unfold tracing_calls. by rewrite List.filter_app, length_app. Qed.

(** The module level calls the tracing hook exactly once. *)
Lemma module_level_traces_once pf w w1 :
  module_level pf w = (inr tt, w1) ->
  tracing_calls (calls w1) = S (tracing_calls (calls w)).
Proof.
  cbv beta iota delta [module_level try_except bind QApplication_setAttribute
    from_classes_import import_or_raise call pass modify get ret raise].
  destruct (bool_decide ("AA_ShareOpenGLContexts" ∈ qt_attributes pf));
    destruct (has_OpenGL pf); destruct (has_QtWebEngineWidgets pf);
    destruct (bool_decide ("AA_EnableHighDpiScaling" ∈ qt_attributes pf));
    simpl;
    destruct (import_classes pf (sys_path w)); simpl;
    try (destruct (OPENSHOT_PATH pf) as [d|]; simpl;
         [destruct (import_classes pf (sys_path w ++ [d])); simpl|]);
    intros H; inversion H; subst; clear H;
    cbn [calls with_calls with_app with_sys_path];
    rewrite ?tracing_calls_app; cbn; lia.
Qed.

Lemma main_parsed_version pf args extra w :
  version args = true ->
  main_parsed pf args extra w =
  (inl (SystemExit None),
   with_stdout (fun out => out ++ [SETUP_version (info w)]) w).
Proof. intros Hv. unfold main_parsed. rewrite Hv. reflexivity. Qed.

(** C3 (amended). With the version flag set, [main] prints the version
    string and leaves by [sys.exit()] (status 0); [main] itself changes
    nothing but the output: no [sys.path] mutation, no collaborator call (so
    no tracing-hook call and no construction), no assignment to [app]. The
    tracing hook is nevertheless called exactly once in such a run: by the
    module level (line 80), before [main] starts. *)
Theorem version_exits_0_main_only_prints
    (pf : Platform) (w w1 : World) (args : Namespace) (extra : list string)
    (argv0 : string) (rest : list string) :
  module_level pf w = (inr tt, w1) ->
  sys_argv pf = argv0 :: rest ->
  parse_known_args pf (tail (sys_argv pf)) = inr (args, extra) ->
  version args = true ->
  launch pf w = main pf w1 /\
  main pf w1 =
    (inl (SystemExit None),
     with_stdout (fun out => out ++ [SETUP_version (info w1)]) w1) /\
  exit_status None = 0 /\
  sys_path (snd (main pf w1)) = sys_path w1 /\
  calls (snd (main pf w1)) = calls w1 /\
  app (snd (main pf w1)) = app w1 /\
  tracing_calls (calls (snd (launch pf w))) = S (tracing_calls (calls w)).
Proof.
  intros Hm Hargv Hp Hv.
  assert (Hl : launch pf w = main pf w1).
  { unfold launch. rewrite (bind_ok _ _ w tt) by (by rewrite Hm).
    by rewrite Hm. }
  assert (Hmain : main pf w1 =
    (inl (SystemExit None),
     with_stdout (fun out => out ++ [SETUP_version (info w1)]) w1)).
  { rewrite main_run. rewrite Hargv in Hp |- *. simpl in Hp. rewrite Hp.
    by apply main_parsed_version. }
  repeat split; try assumption.
  - by rewrite Hmain.
  - by rewrite Hmain.
  - by rewrite Hmain.
  - rewrite Hl, Hmain. simpl. exact (module_level_traces_once pf w w1 Hm).
Qed.

(** C2 (amended). With a non-empty language code outside the supported set
    (and no early exit), [main] runs the configuration steps to completion,
    prints the diagnostic and leaves by [sys.exit(-1)]: the world it leaves
    is the configured world plus that one line. The side effects of the
    configuration steps are kept; nothing follows the failed check: no
    language assignment, no collaborator call, no assignment to [app]. *)
Theorem unsupported_lang_stops_after_configure
    (pf : Platform) (args : Namespace) (extra : list string) (w : World)
    (code : string) :
  version args = false -> list_languages args = false ->
  lang args = Some code -> code <> "" ->
  code ∉ SUPPORTED_LANGUAGES (info w) ->
  fst (configure pf args w) = inr tt /\
  main_parsed pf args extra w =
    (inl (SystemExit (Some (-1))),
     with_stdout (fun out => out ++ [unsupported_message code])
       (snd (configure pf args w))) /\
  sys_path (snd (main_parsed pf args extra w)) =
    rev (inserted_paths pf (default [] (py_path args))) ++ sys_path w /\
  MODEL_TEST (info (snd (main_parsed pf args extra w))) =
    (if modeltest args then true else MODEL_TEST (info w)) /\
  WEB_BACKEND (info (snd (main_parsed pf args extra w))) =
    backend_str (web_backend args) /\
  CMDLINE_LANGUAGE (info (snd (main_parsed pf args extra w))) =
    CMDLINE_LANGUAGE (info w) /\
  calls (snd (main_parsed pf args extra w)) = calls w /\
  app (snd (main_parsed pf args extra w)) = app w.
Proof.
  intros Hv Hl Hlang Hne Hnot.
  destruct (configure_frame pf args w)
    as (Hpath & _ & Hcalls & Happ & _ & Hsup & Hcmd & _).
  destruct (configure_effect pf args w) as (_ & _ & Hmt & Hwb & _).
  assert (Hrun : main_parsed pf args extra w =
    (inl (SystemExit (Some (-1))),
     with_stdout (fun out => out ++ [unsupported_message code])
       (snd (configure pf args w)))).
  { rewrite (main_parsed_configured pf args extra w Hv Hl).
    rewrite (bind_err _ _ _ (SystemExit (Some (-1)))).
    - rewrite (apply_lang_rejects args _ code Hlang Hne); [reflexivity|].
      by rewrite Hsup.
    - rewrite (apply_lang_rejects args _ code Hlang Hne); [reflexivity|].
      by rewrite Hsup. }
  split; [apply configure_ok|]. split; [exact Hrun|].
  rewrite Hrun. simpl. repeat split; assumption.
Qed.

(** C6 (amended). For every non-empty language code outside the supported
    set (and no early exit), [main] leaves by [sys.exit(-1)], and the last
    line it prints is the diagnostic, which contains the code verbatim. *)
Theorem unsupported_lang_exit_code_and_message
    (pf : Platform) (args : Namespace) (extra : list string) (w : World)
    (code : string) :
  version args = false -> list_languages args = false ->
  lang args = Some code -> code <> "" ->
  code ∉ SUPPORTED_LANGUAGES (info w) ->
  fst (main_parsed pf args extra w) = inl (SystemExit (Some (-1))) /\
  exit_status (Some (-1)) = -1 /\
  stdout (snd (main_parsed pf args extra w)) =
    stdout w ++ map (path_report pf) (default [] (py_path args))
             ++ [unsupported_message code] /\
  contains code (unsupported_message code) = true.
Proof.
  intros Hv Hl Hlang Hne Hnot.
  destruct (configure_frame pf args w) as (_ & Hout & _ & _ & _ & Hsup & _).
  rewrite (main_parsed_configured pf args extra w Hv Hl).
  assert (Hrej : apply_lang args (snd (configure pf args w)) =
    (inl (SystemExit (Some (-1))),
     with_stdout (fun out => out ++ [unsupported_message code])
       (snd (configure pf args w)))).
  { apply apply_lang_rejects; try assumption. by rewrite Hsup. }
  rewrite (bind_err _ _ _ (SystemExit (Some (-1)))) by (by rewrite Hrej).
  rewrite Hrej. simpl. repeat split.
  - rewrite Hout. by rewrite <- app_assoc.
  - apply (contains_append code "Unsupported language '" "'! (See --list-languages)").
Qed.

Lemma version_exits_0_witness :
  module_level version_platform demo_world =
    (inr tt, snd (module_level version_platform demo_world)) /\
  sys_argv version_platform = "launch.py" :: ["--version"] /\
  version (with_version no_options) = true /\
  fst (launch version_platform demo_world) = inl (SystemExit None) /\
  stdout (snd (launch version_platform demo_world)) = ["2.5.1"] /\
  tracing_calls (calls (snd (launch version_platform demo_world))) = 1%nat.
Proof.
  assert (Hm : module_level version_platform demo_world =
               (inr tt, snd (module_level version_platform demo_world)))
    by reflexivity.
  destruct (version_exits_0_main_only_prints version_platform demo_world _
              (with_version no_options) [] "launch.py" ["--version"]
              Hm eq_refl eq_refl eq_refl)
    as (Hl & Hmain & _ & _ & _ & _ & Ht).
  split; [exact Hm|]. split; [reflexivity|]. split; [reflexivity|].
  split; [by rewrite Hl, Hmain|]. split; [by rewrite Hl, Hmain|].
  exact Ht.
Defined.

(** C3, as stated, fails: [launch.py --version] does call the tracing hook
    (once, at module level). *)
Lemma version_run_calls_tracing_hook :
  ~ version_run_has_no_setup version_platform demo_world.
Proof.
  intros H. destruct (H _ _ eq_refl eq_refl) as (_ & _ & Ht & _).
  vm_compute in Ht. discriminate.
Qed.

Ltac not_member := rewrite list_elem_of_In; simpl; intuition discriminate.

Lemma unsupported_lang_stops_witness :
  version bad_lang_args = false /\ list_languages bad_lang_args = false /\
  lang bad_lang_args = Some "xx" /\ "xx" <> "" /\
  ("xx" ∉ SUPPORTED_LANGUAGES (info demo_world)) /\
  main_parsed bad_lang_platform bad_lang_args [] demo_world =
    (inl (SystemExit (Some (-1))),
     with_stdout (fun out => out ++ [unsupported_message "xx"])
       (snd (configure bad_lang_platform bad_lang_args demo_world))).
Proof.
  assert (Hne : "xx" <> "") by discriminate.
  assert (Hnot : "xx" ∉ SUPPORTED_LANGUAGES (info demo_world)) by not_member.
  destruct (unsupported_lang_stops_after_configure bad_lang_platform
              bad_lang_args [] demo_world "xx" eq_refl eq_refl eq_refl Hne Hnot)
    as (_ & Hrun & _).
  split; [reflexivity|]. split; [reflexivity|]. split; [reflexivity|].
  split; [exact Hne|]. split; [exact Hnot|]. exact Hrun.
Defined.

(** C2, as stated, fails: with [--path /opt/plugins --test-models -b webkit
    --lang xx] the run ends on the language failure with [/opt/plugins]
    already inserted in [sys.path]. *)
Lemma bad_lang_keeps_earlier_side_effects :
  ~ bad_lang_has_no_side_effect bad_lang_platform bad_lang_args [] demo_world.
Proof.
  intros H.
  assert (Hnot : "xx" ∉ SUPPORTED_LANGUAGES (info demo_world)) by not_member.
  destruct (H "xx" eq_refl Hnot) as (Hp & _).
  vm_compute in Hp. discriminate.
Qed.

Lemma unsupported_lang_exit_witness :
  version bad_lang_args = false /\ list_languages bad_lang_args = false /\
  lang bad_lang_args = Some "xx" /\ "xx" <> "" /\
  ("xx" ∉ SUPPORTED_LANGUAGES (info demo_world)) /\
  fst (main_parsed bad_lang_platform bad_lang_args [] demo_world) =
    inl (SystemExit (Some (-1))) /\
  stdout (snd (main_parsed bad_lang_platform bad_lang_args [] demo_world)) =
    ["Added /opt/plugins to PYTHONPATH";
     "Unsupported language 'xx'! (See --list-languages)"].
Proof.
  assert (Hne : "xx" <> "") by discriminate.
  assert (Hnot : "xx" ∉ SUPPORTED_LANGUAGES (info demo_world)) by not_member.
  destruct (unsupported_lang_exit_code_and_message bad_lang_platform
              bad_lang_args [] demo_world "xx" eq_refl eq_refl eq_refl Hne Hnot)
    as (Hexit & _ & Hout & _).
  split; [reflexivity|]. split; [reflexivity|]. split; [reflexivity|].
  split; [exact Hne|]. split; [exact Hnot|]. split; [exact Hexit|].
  exact Hout.
Defined.

(** C6, as stated, fails at the empty code: [--lang ''] is outside the
    supported set, yet line 166 takes it for "no override" and the run goes
    on to the event loop. *)
Lemma empty_lang_is_not_rejected :
  ~ bad_lang_exits_minus_1 empty_lang_platform (with_lang "" no_options) []
      demo_world.
Proof.
  intros H.
  assert (Hnot : "" ∉ SUPPORTED_LANGUAGES (info demo_world)) by not_member.
  destruct (H "" eq_refl Hnot) as (Hexit & _).
  vm_compute in Hexit. discriminate.
Qed.

(** ** The language override *)

Ltac lang_leaf :=
  let Hs := fresh in
  let Hc := fresh in
  intros ? [Hs Hc]; split; simpl; assumption.

Lemma apply_lang_written_only_if_supported args w0 :
  preserves (lang_written_only_if_supported args w0) (apply_lang args).
Proof.
  intros w HI. pose proof HI as [Hs Hc]. unfold apply_lang.
  destruct (lang args) as [code|] eqn:Hl; simpl; [|exact HI].
  destruct (truthy_str code); simpl; [|exact HI].
  unfold bind; simpl. case_bool_decide as Hin; simpl.
  - split; [exact Hs|]. right. exists code. rewrite <- Hs. by repeat split.
  - exact HI.
Qed.

Lemma main_parsed_written_only_if_supported args w0 pf extra :
  preserves (lang_written_only_if_supported args w0) (main_parsed pf args extra).
Proof.
  pose proof (apply_lang_written_only_if_supported args w0).
  unfold main_parsed. preserves_with lang_leaf.
Qed.

(** C10. If the code given with [--lang] is not in the supported set,
    [info.CMDLINE_LANGUAGE] has its prior value when [main] ends, in
    particular on the [sys.exit(-1)] path; it is assigned only a code that
    passed the membership test. *)
Theorem unsupported_lang_never_assigned
    (pf : Platform) (args : Namespace) (extra : list string) (w : World)
    (code : string) :
  lang args = Some code ->
  code ∉ SUPPORTED_LANGUAGES (info w) ->
  CMDLINE_LANGUAGE (info (snd (main_parsed pf args extra w))) =
  CMDLINE_LANGUAGE (info w).
Proof.
  intros Hl Hnot.
  destruct (main_parsed_written_only_if_supported args w pf extra w)
    as [_ [Hsame | (c & Hc & Hin & _)]].
  - split; [reflexivity | by left].
  - exact Hsame.
  - rewrite Hl in Hc. injection Hc as <-. contradiction.
Qed.

Lemma unsupported_lang_never_assigned_witness :
  lang bad_lang_args = Some "xx" /\
  ("xx" ∉ SUPPORTED_LANGUAGES (info demo_world)) /\
  fst (main_parsed bad_lang_platform bad_lang_args [] demo_world) =
    inl (SystemExit (Some (-1))) /\
  CMDLINE_LANGUAGE
    (info (snd (main_parsed bad_lang_platform bad_lang_args [] demo_world))) =
  CMDLINE_LANGUAGE (info demo_world).
Proof.
  assert (Hnot : "xx" ∉ SUPPORTED_LANGUAGES (info demo_world)) by not_member.
  split; [reflexivity|]. split; [exact Hnot|]. split; [reflexivity|].
  exact (unsupported_lang_never_assigned bad_lang_platform bad_lang_args []
           demo_world "xx" eq_refl Hnot).
Defined.

(** ** Priority of [--path] entries *)

(** C5 (amended). In a run past the early exits (no [--version], no
    [--list-languages]): for [--path] arguments [A] then [B] (anywhere in
    the list, [A] first) that both resolve to existing paths, [sys.path] at
    the end of [main] has the resolved [B] in front of the resolved [A],
    and both in front of every entry present before: each valid path is
    inserted at index 0, so the last one given is searched first. *)
Theorem later_path_searched_first
    (pf : Platform) (args : Namespace) (extra : list string) (w : World)
    (before between after : list string) (A B rA rB : string) :
  version args = false -> list_languages args = false ->
  py_path args = Some (before ++ A :: between ++ B :: after) ->
  realpath pf A = inr rA -> path_exists pf rA = true ->
  realpath pf B = inr rB -> path_exists pf rB = true ->
  sys_path (snd (main_parsed pf args extra w)) =
  rev (inserted_paths pf after) ++ rB ::
  rev (inserted_paths pf between) ++ rA ::
  rev (inserted_paths pf before) ++ sys_path w.
Proof.
  intros Hv Hl Hp HA HeA HB HeB.
  rewrite (main_parsed_sys_path pf args extra w Hv Hl), Hp. simpl default.
  rewrite inserted_paths_app, (inserted_paths_existing pf A rA _ HA HeA).
  rewrite inserted_paths_app, (inserted_paths_existing pf B rB _ HB HeB).
  rewrite rev_app_distr. simpl rev. rewrite rev_app_distr. simpl rev.
  by rewrite <- !app_assoc.
Qed.

Lemma later_path_searched_first_witness :
  py_path two_paths_args = Some ([] ++ "/opt/plugins" :: [] ++ "/opt/effects" :: []) /\
  realpath two_paths_platform "/opt/plugins" = inr "/opt/plugins" /\
  path_exists two_paths_platform "/opt/plugins" = true /\
  realpath two_paths_platform "/opt/effects" = inr "/opt/effects" /\
  path_exists two_paths_platform "/opt/effects" = true /\
  sys_path (snd (main_parsed two_paths_platform two_paths_args [] demo_world)) =
    "/opt/effects" :: "/opt/plugins" :: sys_path demo_world.
Proof.
  split; [reflexivity|]. split; [reflexivity|]. split; [reflexivity|].
  split; [reflexivity|]. split; [reflexivity|].
  exact (later_path_searched_first two_paths_platform two_paths_args []
           demo_world [] [] [] "/opt/plugins" "/opt/effects"
           "/opt/plugins" "/opt/effects"
           eq_refl eq_refl eq_refl eq_refl eq_refl eq_refl eq_refl).
Defined.

(** C5, as stated, fails: with [--list-languages --path /opt/plugins --path
    /opt/effects] the run ends at the listing, before the [--path] loop,
    and [sys.path] has neither directory. *)
Lemma listing_run_inserts_no_path :
  ~ later_path_wins_on_every_run listing_two_paths_platform
      listing_two_paths_args [] demo_world.
Proof.
  intros H.
  destruct (H [] [] [] "/opt/plugins" "/opt/effects" "/opt/plugins" "/opt/effects"
              eq_refl eq_refl eq_refl eq_refl eq_refl) as (l1 & l2 & l3 & Hp).
  assert (Hin : In "/opt/effects"
                  (sys_path (snd (main_parsed listing_two_paths_platform
                                    listing_two_paths_args [] demo_world)))).
  { rewrite Hp. apply in_or_app. right. by left. }
  vm_compute in Hin. intuition discriminate.
Qed.

(** ** Construction of the application *)

(** The constructor is called first thing, whatever happens next. *)
Lemma create_app_calls_constructor pf argv w :
  In (OpenShotApp argv) (calls (snd (create_app pf argv w))).
Proof.
  cbv beta iota delta [create_app try_except new_OpenShotApp bind call modify
    app_method get ret raise].
  simpl.
  destruct (OpenShotApp_raises pf argv) as [e|]; simpl.
  - destruct (is_Exception e); simpl.
    + destruct (app w); simpl.
      * apply in_or_app. left. apply in_or_app. right. by left.
      * apply in_or_app. right. by left.
    + apply in_or_app. right. by left.
  - apply in_or_app. right. by left.
Qed.

Ltac constructed_leaf :=
  let H := fresh in
  let Hin := fresh in
  let Heq := fresh in
  intros ? H ? Hin; simpl in Hin;
  first
    [ apply H; exact Hin
    | apply in_app_or in Hin; destruct Hin as [Hin|[Heq|[]]];
      [ apply H; exact Hin
      | first
          [ discriminate Heq
          | injection Heq as Heq; subst; right; do 2 eexists;
            split; [eassumption
                   | first [reflexivity | by rewrite <- app_assoc] ] ] ] ].

Lemma start_app_constructed_in_code_order pf args extra w0 :
  preserves (constructed_in_code_order pf args extra w0) (start_app pf args extra).
Proof.
  unfold start_app. apply preserves_bind; [preserves_with constructed_leaf|].
  intros _. unfold build_argv. destruct (sys_argv pf) as [|argv0 rest] eqn:Hargv.
  - apply preserves_bind_raise.
  - apply preserves_bind_ret. preserves_with constructed_leaf.
Qed.

Lemma main_parsed_constructed_in_code_order pf args extra w0 :
  preserves (constructed_in_code_order pf args extra w0) (main_parsed pf args extra).
Proof.
  pose proof (start_app_constructed_in_code_order pf args extra w0).
  unfold main_parsed. preserves_with constructed_leaf.
Qed.

(** Past the early exits and the language check, with a program name in
    [sys.argv], [main] reaches the constructor. *)
Lemma main_parsed_reaches_constructor pf args extra w argv0 rest :
  version args = false -> list_languages args = false ->
  lang_rejected args w = false -> sys_argv pf = argv0 :: rest ->
  In (OpenShotApp ([argv0] ++ extra ++ remain args))
     (calls (snd (main_parsed pf args extra w))).
Proof.
  intros Hv Hl Hlang Hargv.
  rewrite (main_parsed_configured pf args extra w Hv Hl).
  set (w1 := snd (configure pf args w)).
  assert (Hok : fst (apply_lang args w1) = inr tt).
  { apply apply_lang_accepts. unfold lang_rejected in *. subst w1.
    destruct (configure_frame pf args w) as (_ & _ & _ & _ & _ & Hsup & _).
    by rewrite Hsup. }
  rewrite (bind_ok _ _ w1 tt Hok). set (w2 := snd (apply_lang args w1)).
  unfold start_app.
  rewrite (bind_ok print_module_origin _ w2 tt eq_refl).
  set (w3 := snd (print_module_origin w2)).
  assert (Hb : fst (build_argv pf args extra w3) = inr ([argv0] ++ extra ++ remain args)).
  { unfold build_argv. rewrite Hargv. reflexivity. }
  rewrite (bind_ok _ _ w3 _ Hb).
  assert (Hw : snd (build_argv pf args extra w3) = w3).
  { unfold build_argv. by rewrite Hargv. }
  rewrite Hw.
  apply (bind_post (fun w' => In (OpenShotApp ([argv0] ++ extra ++ remain args)) (calls w'))).
  - apply create_app_calls_constructor.
  - intros _. apply run_app_keeps_calls.
Qed.

(** C4 (amended). Every constructor call [main] makes receives
    [sys.argv[0]], followed by the unrecognized arguments ([extra_args]),
    followed by the passthrough arguments ([args.remain]), in that order. *)
Theorem constructor_gets_argv0_extra_remain
    (pf : Platform) (args : Namespace) (extra : list string) (w : World)
    (argv : list string) :
  In (OpenShotApp argv) (calls (snd (main_parsed pf args extra w))) ->
  ~ In (OpenShotApp argv) (calls w) ->
  exists argv0 rest,
    sys_argv pf = argv0 :: rest /\ argv = [argv0] ++ extra ++ remain args.
Proof.
  intros Hin Hnew.
  assert (H0 : constructed_in_code_order pf args extra w w) by (intros a Ha; by left).
  destruct (main_parsed_constructed_in_code_order pf args extra w w H0 argv Hin)
    as [Hold | Hcode].
  - contradiction.
  - exact Hcode.
Qed.

Lemma constructor_gets_argv0_extra_remain_witness :
  In (OpenShotApp ["launch.py"; "-style"; "fusion"])
     (calls (snd (main_parsed style_platform style_args ["-style"] demo_world))) /\
  ~ In (OpenShotApp ["launch.py"; "-style"; "fusion"]) (calls demo_world) /\
  exists argv0 rest,
    sys_argv style_platform = argv0 :: rest /\
    ["launch.py"; "-style"; "fusion"] = [argv0] ++ ["-style"] ++ remain style_args.
Proof.
  assert (Hin : In (OpenShotApp ["launch.py"; "-style"; "fusion"])
     (calls (snd (main_parsed style_platform style_args ["-style"] demo_world))))
    by (vm_compute; left; reflexivity).
  assert (Hnew : ~ In (OpenShotApp ["launch.py"; "-style"; "fusion"]) (calls demo_world))
    by (simpl; tauto).
  split; [exact Hin|]. split; [exact Hnew|].
  exact (constructor_gets_argv0_extra_remain style_platform style_args
           ["-style"] demo_world _ Hin Hnew).
Defined.

(** C4, as stated, fails: for [launch.py -style fusion] the constructor
    receives [-style] before [fusion], not after it. *)
Lemma constructor_not_in_spec_order :
  ~ constructed_in_spec_order style_platform style_args ["-style"] demo_world.
Proof.
  intros H.
  destruct (H ["launch.py"; "-style"; "fusion"]) as (a & r & Ha & Hargv).
  - vm_compute. left. reflexivity.
  - simpl. tauto.
  - vm_compute in Ha. injection Ha as <- <-. vm_compute in Hargv. discriminate.
Qed.

(** ** Missing [--path] entries *)

(** C7 (amended). For a [--path] argument [p] whose resolved path [r] does
    not exist, in a run past the early exits: the line [r does not exist]
    is printed, naming the resolved path; nothing is inserted for [p] while
    the entries before and after it are processed as usual, each with its
    own report; and when the language check passes the constructor is
    still called. *)
Theorem missing_path_reported_and_skipped
    (pf : Platform) (args : Namespace) (extra : list string) (w : World)
    (before after : list string) (p r argv0 : string) (rest : list string) :
  version args = false -> list_languages args = false ->
  py_path args = Some (before ++ p :: after) ->
  realpath pf p = inr r -> path_exists pf r = false ->
  In (r +:+ " does not exist") (stdout (snd (main_parsed pf args extra w))) /\
  sys_path (snd (main_parsed pf args extra w)) =
    rev (inserted_paths pf after) ++ rev (inserted_paths pf before) ++ sys_path w /\
  (forall q, In q after ->
     In (path_report pf q) (stdout (snd (main_parsed pf args extra w)))) /\
  (lang_rejected args w = false -> sys_argv pf = argv0 :: rest ->
     In (OpenShotApp ([argv0] ++ extra ++ remain args))
        (calls (snd (main_parsed pf args extra w)))).
Proof.
  intros Hv Hl Hp Hr He. repeat split.
  - replace (r +:+ " does not exist") with (path_report pf p)
      by (unfold path_report; by rewrite Hr, He).
    apply main_parsed_reports; try assumption.
    rewrite Hp. simpl. apply in_or_app. right. by left.
  - rewrite (main_parsed_sys_path pf args extra w Hv Hl), Hp. simpl default.
    rewrite inserted_paths_app. simpl. rewrite Hr, He.
    rewrite rev_app_distr. by rewrite <- app_assoc.
  - intros q Hq. apply main_parsed_reports; try assumption.
    rewrite Hp. simpl. apply in_or_app. right. by right.
  - intros Hlang Hargv. by apply (main_parsed_reaches_constructor pf args extra w argv0 rest).
Qed.

Lemma missing_path_reported_witness :
  py_path missing_path_args = Some ([] ++ "plugins/../mods" :: ["/opt/effects"]) /\
  realpath missing_path_platform "plugins/../mods" = inr "/home/user/mods" /\
  path_exists missing_path_platform "/home/user/mods" = false /\
  In "/home/user/mods does not exist"
     (stdout (snd (main_parsed missing_path_platform missing_path_args []
                     demo_world))) /\
  sys_path (snd (main_parsed missing_path_platform missing_path_args []
                   demo_world)) = "/opt/effects" :: sys_path demo_world /\
  In (OpenShotApp ["launch.py"])
     (calls (snd (main_parsed missing_path_platform missing_path_args []
                    demo_world))).
Proof.
  destruct (missing_path_reported_and_skipped missing_path_platform
              missing_path_args [] demo_world [] ["/opt/effects"]
              "plugins/../mods" "/home/user/mods" "launch.py"
              ["--path"; "plugins/../mods"; "--path"; "/opt/effects"]
              eq_refl eq_refl eq_refl eq_refl eq_refl)
    as (Hline & Hpath & _ & Hctor).
  split; [reflexivity|]. split; [reflexivity|]. split; [reflexivity|].
  split; [exact Hline|]. split; [exact Hpath|].
  exact (Hctor eq_refl eq_refl).
Defined.

(** C7, as stated, fails: for [--path plugins/../mods] no printed line
    contains [plugins/../mods]; the diagnostic names [/home/user/mods]. *)
Lemma missing_path_not_named_as_given :
  ~ missing_path_named_as_given missing_path_platform missing_path_args []
      demo_world.
Proof.
  intros H.
  destruct (H "plugins/../mods" "/home/user/mods") as (line & Hin & Hc);
    [by left | reflexivity | reflexivity |].
  vm_compute in Hin.
  destruct Hin as [<- | [<- | [<- | []]]]; vm_compute in Hc; discriminate.
Qed.

(** ** Debug flags *)

Lemma main_parsed_debug_levels pf args extra w :
  version args = false ->
  (debug args || debug_file args = true) ->
  (debug args || debug_console args = true) ->
  LOG_LEVEL_FILE (info (snd (main_parsed pf args extra w))) = "DEBUG" /\
  LOG_LEVEL_CONSOLE (info (snd (main_parsed pf args extra w))) = "DEBUG".
Proof.
  intros Hv Hf Hc.
  assert (E : main_parsed pf args extra w =
    (when (list_languages args) (show_languages pf) ;;;
     extend_sys_path pf args ;;; apply_modeltest args ;;;
     apply_web_backend args ;;; apply_lang args ;;; start_app pf args extra)
      (snd (set_log_levels args w))).
  { unfold main_parsed. rewrite Hv. unfold when at 1.
    rewrite (bind_ok (ret tt) _ w tt eq_refl). simpl snd.
    by rewrite (bind_ok (set_log_levels args) _ w tt (set_log_levels_ok args w)). }
  rewrite E.
  apply (after_log_levels_keeps_levels "DEBUG" "DEBUG" pf args extra).
  unfold set_log_levels. rewrite Hf, Hc. split; reflexivity.
Qed.

(** C8. [--debug] alone and [--debug-file --debug-console] together leave
    the same file-channel and console-channel severities, for every other
    option, platform and starting world; unless the run is a version query,
    both severities are then [DEBUG]. *)
Theorem debug_equals_debug_file_and_console
    (pf : Platform) (args : Namespace) (extra : list string) (w : World) :
  let alone := snd (main_parsed pf (with_debug_flags true false false args) extra w) in
  let both := snd (main_parsed pf (with_debug_flags false true true args) extra w) in
  LOG_LEVEL_FILE (info alone) = LOG_LEVEL_FILE (info both) /\
  LOG_LEVEL_CONSOLE (info alone) = LOG_LEVEL_CONSOLE (info both) /\
  (version args = false ->
   LOG_LEVEL_FILE (info alone) = "DEBUG" /\
   LOG_LEVEL_CONSOLE (info alone) = "DEBUG").
Proof.
  intros alone both.
  assert (E : alone = both) by reflexivity.
  rewrite E. split; [reflexivity|]. split; [reflexivity|].
  intros Hv. rewrite <- E.
  by apply (main_parsed_debug_levels pf (with_debug_flags true false false args)).
Qed.

Lemma debug_equals_debug_file_and_console_witness :
  version no_options = false /\
  LOG_LEVEL_FILE (info demo_world) = "INFO" /\
  LOG_LEVEL_FILE
    (info (snd (main_parsed (demo_platform ["launch.py"; "--debug"] no_options [] None)
                  (with_debug_flags true false false no_options) [] demo_world)))
    = "DEBUG" /\
  LOG_LEVEL_CONSOLE
    (info (snd (main_parsed (demo_platform ["launch.py"; "--debug"] no_options [] None)
                  (with_debug_flags false true true no_options) [] demo_world)))
    = "DEBUG".
Proof.
  destruct (debug_equals_debug_file_and_console
              (demo_platform ["launch.py"; "--debug"] no_options [] None)
              no_options [] demo_world) as (_ & Hc & Hd).
  destruct (Hd eq_refl) as (Hfile & Hcons).
  split; [reflexivity|]. split; [reflexivity|]. split; [exact Hfile|].
  rewrite <- Hc. exact Hcons.
Defined.

(** ** Construction failure *)

(** C1 (the code departs from it). When the constructor raises an
    [Exception] and the global [app] is still [None], the handler's
    [app.show_errors()] raises [AttributeError]: the degraded path throws,
    and [show_errors] is never entered. *)
Theorem failed_construction_with_no_app_raises
    (pf : Platform) (argv : list string) (e : exn) (w : World) :
  OpenShotApp_raises pf argv = Some e -> is_Exception e = true ->
  app w = None ->
  create_app pf argv w =
  (inl (AttributeError "'NoneType' object has no attribute 'show_errors'"),
   with_calls (fun cs => cs ++ [OpenShotApp argv]) w).
Proof.
  intros Hr He Ha.
  cbv beta iota delta [create_app try_except new_OpenShotApp bind call modify
    app_method get ret raise].
  simpl. rewrite Hr. simpl. rewrite He. simpl. rewrite Ha. reflexivity.
Qed.

Lemma failed_construction_witness :
  OpenShotApp_raises failing_platform ["launch.py"] =
    Some (RuntimeError "could not connect to display") /\
  is_Exception (RuntimeError "could not connect to display") = true /\
  app demo_world = None /\
  fst (create_app failing_platform ["launch.py"] demo_world) =
    inl (AttributeError "'NoneType' object has no attribute 'show_errors'") /\
  fst (launch failing_platform demo_world) =
    inl (AttributeError "'NoneType' object has no attribute 'show_errors'") /\
  ~ In show_errors (calls (snd (launch failing_platform demo_world))).
Proof.
  pose proof (failed_construction_with_no_app_raises failing_platform
                ["launch.py"] _ demo_world eq_refl eq_refl eq_refl) as H.
  split; [reflexivity|]. split; [reflexivity|]. split; [reflexivity|].
  split; [by rewrite H|]. split; [reflexivity|].
  vm_compute. intros [Hc | [Hc | [Hc | [Hc | []]]]]; discriminate.
Defined.

(** ** Log levels (lines 134-138) *)

Lemma main_parsed_after_log_levels pf args extra w :
  version args = false ->
  main_parsed pf args extra w =
  (when (list_languages args) (show_languages pf) ;;;
   extend_sys_path pf args ;;; apply_modeltest args ;;;
   apply_web_backend args ;;; apply_lang args ;;; start_app pf args extra)
    (snd (set_log_levels args w)).
Proof.
  intros Hv. unfold main_parsed. rewrite Hv. unfold when at 1.
  rewrite (bind_ok (ret tt) _ w tt eq_refl). simpl snd.
  by rewrite (bind_ok (set_log_levels args) _ w tt (set_log_levels_ok args w)).
Qed.

(** X1. Unless the run is a version query, each channel's severity at the
    end of [main] is [DEBUG] when [--debug] or the channel's own flag was
    given, and its prior value otherwise: [--debug-file] alone leaves the
    console channel alone, and conversely. This holds on every exit path,
    the language listing and the language failure included. *)
Theorem log_levels_follow_flags
    (pf : Platform) (args : Namespace) (extra : list string) (w : World) :
  version args = false ->
  LOG_LEVEL_FILE (info (snd (main_parsed pf args extra w))) =
    (if debug args || debug_file args then "DEBUG" else LOG_LEVEL_FILE (info w)) /\
  LOG_LEVEL_CONSOLE (info (snd (main_parsed pf args extra w))) =
    (if debug args || debug_console args then "DEBUG"
     else LOG_LEVEL_CONSOLE (info w)).
Proof.
  intros Hv. rewrite (main_parsed_after_log_levels pf args extra w Hv).
  apply (after_log_levels_keeps_levels _ _ pf args extra).
  unfold set_log_levels, bind.
  destruct (debug args), (debug_file args), (debug_console args);
    split; reflexivity.
Qed.

Lemma log_levels_follow_flags_witness :
  version models_args = false /\
  LOG_LEVEL_FILE
    (info (snd (main_parsed (demo_platform ["launch.py"] models_args [] None)
                  models_args [] demo_world))) = "DEBUG" /\
  LOG_LEVEL_CONSOLE
    (info (snd (main_parsed (demo_platform ["launch.py"] models_args [] None)
                  models_args [] demo_world))) = "INFO".
Proof.
  split; [reflexivity|].
  exact (log_levels_follow_flags (demo_platform ["launch.py"] models_args [] None)
           models_args [] demo_world eq_refl).
Defined.

(** ** The language listing (lines 140-145) *)

Lemma for_each_print {A} (l : list A) (body : A -> M unit) (f : A -> string) w :
  (forall x w', body x w' = print (f x) w') ->
  for_each l body w = (inr tt, with_stdout (fun out => out ++ map f l) w).
Proof.
  intros Hb. revert w. induction l as [|x l IH]; intros w.
  - simpl. unfold ret. destruct w; unfold with_stdout; simpl.
    by rewrite app_nil_r.
  - change (for_each (x :: l) body) with (bind (body x) (fun _ => for_each l body)).
    rewrite (bind_ok _ _ w tt) by (by rewrite Hb).
    rewrite Hb, IH. destruct w; unfold print, modify, with_stdout; simpl.
    by rewrite <- app_assoc.
Qed.

Lemma show_languages_run pf w :
  show_languages pf w =
  (inl (SystemExit None),
   with_stdout
     (fun out => out ++ "Supported Languages:" :: map language_line (all_languages pf))
     (with_calls (fun cs => cs ++ [get_all_languages]) w)).
Proof.
  unfold show_languages.
  rewrite (bind_ok (print "Supported Languages:") _ w tt eq_refl).
  rewrite (bind_ok (call get_all_languages) _ _ tt eq_refl).
  set (w2 := snd (call get_all_languages _)).
  assert (Hloop : for_each (all_languages pf)
            (fun '(code, name) => print ("  " +:+ rjust 12 code +:+ "  " +:+ name)) w2
          = (inr tt, with_stdout (fun out => out ++ map language_line (all_languages pf)) w2)).
  { apply for_each_print. intros [code name] w'. reflexivity. }
  rewrite (bind_ok _ _ w2 tt) by (by rewrite Hloop).
  rewrite Hloop. subst w2. destruct w; unfold sys_exit, raise, print, call,
    modify, with_stdout, with_calls; simpl.
  by rewrite <- app_assoc.
Qed.

Lemma main_parsed_listing pf args extra w :
  version args = false -> list_languages args = true ->
  main_parsed pf args extra w =
  (inl (SystemExit None),
   with_stdout
     (fun out => out ++ "Supported Languages:" :: map language_line (all_languages pf))
     (with_calls (fun cs => cs ++ [get_all_languages]) (snd (set_log_levels args w)))).
Proof.
  intros Hv Hl. rewrite (main_parsed_after_log_levels pf args extra w Hv).
  rewrite Hl. unfold when.
  rewrite (bind_err _ _ _ (SystemExit None)) by (by rewrite show_languages_run).
  by rewrite show_languages_run.
Qed.

(** X2. [--list-languages] (without [--version]) prints the header and then
    exactly one line per catalog entry, in catalog order, and leaves by
    [sys.exit()] (status 0). It takes precedence over [--path] and
    [--lang]: [sys.path] and [info.CMDLINE_LANGUAGE] are untouched, no
    unsupported-language diagnostic is printed and no application is
    constructed; the catalog is queried once. *)
Theorem list_languages_prints_catalog_and_exits
    (pf : Platform) (args : Namespace) (extra : list string) (w : World) :
  version args = false -> list_languages args = true ->
  fst (main_parsed pf args extra w) = inl (SystemExit None) /\
  stdout (snd (main_parsed pf args extra w)) =
    stdout w ++ "Supported Languages:" :: map language_line (all_languages pf) /\
  calls (snd (main_parsed pf args extra w)) = calls w ++ [get_all_languages] /\
  sys_path (snd (main_parsed pf args extra w)) = sys_path w /\
  CMDLINE_LANGUAGE (info (snd (main_parsed pf args extra w))) =
    CMDLINE_LANGUAGE (info w) /\
  app (snd (main_parsed pf args extra w)) = app w.
Proof.
  intros Hv Hl. rewrite (main_parsed_listing pf args extra w Hv Hl). simpl.
  unfold set_log_levels, bind.
  destruct (debug args), (debug_file args), (debug_console args);
    repeat split; reflexivity.
Qed.

Lemma list_languages_witness :
  version list_args = false /\ list_languages list_args = true /\
  fst (main_parsed (demo_platform ["launch.py"] list_args [] None)
         list_args [] demo_world) = inl (SystemExit None) /\
  stdout (snd (main_parsed (demo_platform ["launch.py"] list_args [] None)
                 list_args [] demo_world)) =
    ["Supported Languages:";
     "         en_US  English (US)";
     "         es_ES  Spanish";
     "         fr_FR  French"].
Proof.
  destruct (list_languages_prints_catalog_and_exits
              (demo_platform ["launch.py"] list_args [] None)
              list_args [] demo_world eq_refl eq_refl) as (Hexit & Hout & _).
  split; [reflexivity|]. split; [reflexivity|]. split; [exact Hexit|].
  exact Hout.
Defined.

Lemma blanks_length (n : nat) : String.length (blanks n) = n.
Proof. induction n as [|n IH]; simpl; [reflexivity | by rewrite IH]. Qed.

Lemma append_length (a b : string) :
  String.length (a +:+ b) = (String.length a + String.length b)%nat.
Proof. induction a as [|c a IH]; simpl; [reflexivity | by rewrite IH]. Qed.

Lemma append_assoc_s (a b c : string) : (a +:+ b) +:+ c = a +:+ b +:+ c.
Proof.
  induction a as [|x a IH]; [reflexivity|].
  change (String x ((a +:+ b) +:+ c) = String x (a +:+ b +:+ c)).
  by f_equal.
Qed.

Lemma substring_skip (a b : string) (n : nat) :
  String.substring (String.length a) n (a +:+ b) = String.substring 0 n b.
Proof. induction a as [|x a IH]; simpl; [reflexivity | exact IH]. Qed.

Lemma substring_take (a b : string) :
  String.substring 0 (String.length a) (a +:+ b) = a.
Proof. induction a as [|x a IH]; simpl; [by destruct b | by rewrite IH]. Qed.

Lemma substring_whole (a : string) :
  String.substring 0 (String.length a) a = a.
Proof. induction a as [|x a IH]; simpl; [reflexivity | by rewrite IH]. Qed.

Lemma get_blanks (n i : nat) (s : string) :
  (i < n)%nat -> String.get i (blanks n +:+ s) = Some " "%char.
Proof.
  revert i. induction n as [|n IH]; intros i Hi; [lia|].
  destruct i as [|i]; simpl; [reflexivity|]. apply IH. lia.
Qed.

(** A catalog line, column by column. *)
Lemma language_line_columns (code name : string) :
  language_line (code, name) =
  blanks (2 + (12 - String.length code)) +:+ code +:+ "  " +:+ name.
Proof.
  unfold language_line, rjust. cbn [fst snd].
  rewrite (append_assoc_s (blanks (12 - String.length code)) code).
  reflexivity.
Qed.

(** X3. In a catalog line the code is right-aligned in a field of 12
    columns after two blanks: the line starts with blanks only, the code
    occupies the columns that end the field, two blanks follow and then
    the display name, which therefore starts at column 16 for every code
    of at most 12 characters. A longer code is printed in full, without
    truncation, and pushes the name to the right. Columns are counted
    from 0, in characters of the embedding (code points for ASCII
    text). *)
Theorem language_line_alignment (code name : string) :
  String.length (language_line (code, name)) =
    (2 + Nat.max 12 (String.length code) + 2 + String.length name)%nat /\
  ((12 <= String.length code)%nat -> rjust 12 code = code) /\
  (forall i, (i < 2 + (12 - String.length code))%nat ->
     String.get i (language_line (code, name)) = Some " "%char) /\
  String.substring (2 + (12 - String.length code)) (String.length code)
    (language_line (code, name)) = code /\
  String.substring (2 + Nat.max 12 (String.length code)) 2
    (language_line (code, name)) = "  " /\
  String.substring (2 + Nat.max 12 (String.length code) + 2) (String.length name)
    (language_line (code, name)) = name.
Proof.
  split; [|split; [|split; [|split; [|split]]]].
  - unfold language_line, rjust. simpl fst. simpl snd.
    rewrite !append_length, blanks_length. simpl. lia.
  - intros Hlong. unfold rjust.
    replace (12 - String.length code)%nat with 0%nat by lia. reflexivity.
  - intros i Hi. rewrite language_line_columns. by apply get_blanks.
  - rewrite language_line_columns.
    rewrite <- (blanks_length (2 + (12 - String.length code))) at 1.
    rewrite substring_skip. apply substring_take.
  - rewrite language_line_columns, <- append_assoc_s.
    replace (2 + Nat.max 12 (String.length code))%nat
      with (String.length (blanks (2 + (12 - String.length code)) +:+ code))
      by (rewrite append_length, blanks_length; lia).
    rewrite substring_skip. apply (substring_take "  " name).
  - rewrite language_line_columns, <- append_assoc_s.
    rewrite <- (append_assoc_s _ "  " name).
    replace (2 + Nat.max 12 (String.length code) + 2)%nat
      with (String.length ((blanks (2 + (12 - String.length code)) +:+ code) +:+ "  "))
      by (rewrite !append_length, blanks_length; simpl; lia).
    rewrite substring_skip. apply substring_whole.
Qed.

Lemma language_line_alignment_witness :
  (12 <= String.length "sr_RS@latin_x")%nat /\
  rjust 12 "sr_RS@latin_x" = "sr_RS@latin_x" /\
  String.length (language_line ("en_US", "English (US)")) = 28%nat /\
  (3 < 2 + (12 - String.length "en_US"))%nat /\
  String.get 3 (language_line ("en_US", "English (US)")) = Some " "%char /\
  String.substring 9 5 (language_line ("en_US", "English (US)")) = "en_US" /\
  String.substring 16 12 (language_line ("en_US", "English (US)")) = "English (US)".
Proof.
  destruct (language_line_alignment "sr_RS@latin_x" "Serbian") as (_ & Hlong & _).
  destruct (language_line_alignment "en_US" "English (US)")
    as (Hlen & _ & Hblank & Hcode & _ & Hname).
  assert (Hlt : (3 < 2 + (12 - String.length "en_US"))%nat) by (simpl; lia).
  split; [simpl; lia|]. split; [apply Hlong; simpl; lia|].
  split; [exact Hlen|]. split; [exact Hlt|]. split; [exact (Hblank 3%nat Hlt)|].
  split; [exact Hcode | exact Hname].
Defined.

(** ** Normal startup (lines 173-198) *)

Lemma apply_lang_accepted_run args w :
  lang_rejected args w = false ->
  apply_lang args w =
  (inr tt,
   if truthy_opt_str (lang args)
   then with_info (set_CMDLINE_LANGUAGE (Some (default "" (lang args)))) w
   else w).
Proof.
  unfold lang_rejected, apply_lang. intros H.
  destruct (truthy_opt_str (lang args)); simpl in *; [|reflexivity].
  unfold bind; simpl.
  destruct (bool_decide (default "" (lang args) ∈ SUPPORTED_LANGUAGES (info w)));
    [reflexivity | discriminate].
Qed.

(** Lines 182-198 when the constructor returns. *)
Lemma create_and_run_app pf argv w :
  OpenShotApp_raises pf argv = None ->
  (create_app pf argv ;;; run_app pf) w =
  (inl (SystemExit (Some (exec_result pf {| app_argv := argv |}))),
   with_app (Some {| app_argv := argv |})
     (with_calls (fun cs => cs ++ startup_calls pf argv (SETUP_version (info w))) w)).
Proof.
  intros Hr.
  cbv beta iota delta [create_app run_app try_except new_OpenShotApp bind call
    modify app_method get ret raise pass sys_exit startup_calls].
  simpl. rewrite Hr. simpl.
  destruct (has_setDesktopFile pf); destruct w; unfold with_app, with_calls;
    simpl; rewrite <- ?app_assoc; reflexivity.
Qed.

(** The world in which [start_app] begins when the language check passes. *)
Lemma main_parsed_accepted pf args extra w :
  version args = false -> list_languages args = false ->
  lang_rejected args w = false ->
  exists w2,
    main_parsed pf args extra w = start_app pf args extra w2 /\
    calls w2 = calls w /\ app w2 = app w /\
    SETUP_version (info w2) = SETUP_version (info w) /\
    PATH (info w2) = PATH (info w) /\
    stdout w2 = stdout w ++ map (path_report pf) (default [] (py_path args)) /\
    sys_path w2 = rev (inserted_paths pf (default [] (py_path args))) ++ sys_path w /\
    CMDLINE_LANGUAGE (info w2) =
      (if truthy_opt_str (lang args) then lang args
       else CMDLINE_LANGUAGE (info w)).
Proof.
  intros Hv Hl Hlang.
  destruct (configure_frame pf args w)
    as (Hpath & Hout & Hcalls & Happ & _ & Hsup & Hcmd & Hp & Hver).
  set (w1 := snd (configure pf args w)) in *.
  assert (Hrej : lang_rejected args w1 = false).
  { unfold lang_rejected in *. by rewrite Hsup. }
  exists (snd (apply_lang args w1)). split.
  - rewrite (main_parsed_configured pf args extra w Hv Hl). fold w1.
    rewrite (bind_ok (apply_lang args) _ w1 tt); [reflexivity|].
    by rewrite (apply_lang_accepted_run args w1 Hrej).
  - rewrite (apply_lang_accepted_run args w1 Hrej). simpl snd.
    destruct (lang args) as [code|]; simpl; [destruct (truthy_str code); simpl|];
      repeat split; assumption.
Qed.

(** X4. Past the early exits, when the language check passes, [sys.argv]
    has a program name and the constructor returns: [main] leaves by
    [sys.exit] with the event loop's return value; the global [app] holds
    the new object; the collaborators are called in the order constructor,
    [setApplicationName('openshot')], [setApplicationVersion(version)],
    [setDesktopFile] only where Qt has it, [gui], [exec_]; and the output
    is the [--path] reports followed by the module-origin line. *)
Theorem normal_startup_exits_with_loop_code
    (pf : Platform) (args : Namespace) (extra : list string) (w : World)
    (argv0 : string) (rest : list string) :
  version args = false -> list_languages args = false ->
  lang_rejected args w = false ->
  sys_argv pf = argv0 :: rest ->
  OpenShotApp_raises pf ([argv0] ++ extra ++ remain args) = None ->
  let h := {| app_argv := [argv0] ++ extra ++ remain args |} in
  fst (main_parsed pf args extra w) = inl (SystemExit (Some (exec_result pf h))) /\
  app (snd (main_parsed pf args extra w)) = Some h /\
  calls (snd (main_parsed pf args extra w)) =
    calls w ++ startup_calls pf (app_argv h) (SETUP_version (info w)) /\
  stdout (snd (main_parsed pf args extra w)) =
    stdout w ++ map (path_report pf) (default [] (py_path args))
             ++ ["Loaded modules from: " +:+ PATH (info w)].
Proof.
  intros Hv Hl Hlang Hargv Hr h.
  destruct (main_parsed_accepted pf args extra w Hv Hl Hlang)
    as (w2 & Hrun & Hcalls & _ & Hver & Hp & Hout & _).
  assert (E : main_parsed pf args extra w =
    (create_app pf (app_argv h) ;;; run_app pf) (snd (print_module_origin w2))).
  { rewrite Hrun. unfold start_app.
    rewrite (bind_ok print_module_origin _ w2 tt eq_refl).
    set (w3 := snd (print_module_origin w2)).
    assert (Hb : build_argv pf args extra w3 = (inr (app_argv h), w3)).
    { unfold build_argv. rewrite Hargv. reflexivity. }
    rewrite (bind_ok _ _ w3 (app_argv h)) by (by rewrite Hb).
    by rewrite Hb. }
  rewrite E, (create_and_run_app pf (app_argv h) _ Hr). simpl.
  rewrite Hcalls, Hver, Hout, Hp. repeat split. by rewrite <- app_assoc.
Qed.

Lemma normal_startup_witness :
  version (with_remain ["project.osp"] no_options) = false /\
  sys_argv checkout_platform = "launch.py" :: ["project.osp"] /\
  fst (main_parsed checkout_platform (with_remain ["project.osp"] no_options) []
         demo_world) = inl (SystemExit (Some 3)) /\
  calls (snd (main_parsed checkout_platform (with_remain ["project.osp"] no_options)
                [] demo_world)) =
    [OpenShotApp ["launch.py"; "project.osp"]; setApplicationName "openshot";
     setApplicationVersion "2.5.1"; gui; exec_].
Proof.
  destruct (normal_startup_exits_with_loop_code checkout_platform
              (with_remain ["project.osp"] no_options) [] demo_world
              "launch.py" ["project.osp"] eq_refl eq_refl eq_refl eq_refl eq_refl)
    as (Hexit & _ & Hcalls & _).
  split; [reflexivity|]. split; [reflexivity|]. split; [exact Hexit|].
  exact Hcalls.
Defined.

(** ** Model testing, web backend and language override (lines 159-168) *)

Lemma startup_keeps_settings (mt : bool) (wb : string)
    (env : gmap string string) pf args extra :
  preserves
    (fun w => MODEL_TEST (info w) = mt /\ WEB_BACKEND (info w) = wb /\
              process_env w = env)
    (apply_lang args ;;; start_app pf args extra).
Proof. preserves_with same_field_leaf. Qed.

Lemma main_parsed_settings pf args extra w :
  version args = false -> list_languages args = false ->
  MODEL_TEST (info (snd (main_parsed pf args extra w))) =
    (if modeltest args then true else MODEL_TEST (info w)) /\
  WEB_BACKEND (info (snd (main_parsed pf args extra w))) =
    backend_str (web_backend args) /\
  process_env (snd (main_parsed pf args extra w)) =
    (if modeltest args && bool_decide (os_environ w !! "QT_LOGGING_RULES" = None)
     then <["QT_LOGGING_RULES" := "qt.modeltest.debug=true"]> (process_env w)
     else process_env w).
Proof.
  intros Hv Hl. rewrite (main_parsed_configured pf args extra w Hv Hl).
  apply (startup_keeps_settings _ _ _ pf args extra).
  destruct (configure_effect pf args w) as (_ & _ & Hmt & Hwb & Henv).
  by repeat split.
Qed.

(** X5. Past the early exits, [--test-models] sets [info.MODEL_TEST], and
    puts [QT_LOGGING_RULES=qt.modeltest.debug=true] into the process
    environment exactly when [os.environ] has no [QT_LOGGING_RULES]: a value
    set by the user is never overridden. Without [--test-models] neither
    the flag nor the environment is touched. *)
Theorem modeltest_sets_flag_and_default_rules
    (pf : Platform) (args : Namespace) (extra : list string) (w : World) :
  version args = false -> list_languages args = false ->
  MODEL_TEST (info (snd (main_parsed pf args extra w))) =
    (if modeltest args then true else MODEL_TEST (info w)) /\
  process_env (snd (main_parsed pf args extra w)) =
    (if modeltest args && bool_decide (os_environ w !! "QT_LOGGING_RULES" = None)
     then <["QT_LOGGING_RULES" := "qt.modeltest.debug=true"]> (process_env w)
     else process_env w) /\
  (is_Some (os_environ w !! "QT_LOGGING_RULES") ->
   process_env (snd (main_parsed pf args extra w)) = process_env w).
Proof.
  intros Hv Hl.
  destruct (main_parsed_settings pf args extra w Hv Hl) as (Hmt & _ & Henv).
  split; [exact Hmt|]. split; [exact Henv|].
  intros [v Hset]. rewrite Henv, Hset.
  by rewrite andb_false_r.
Qed.

Lemma modeltest_witness :
  version models_args = false /\ list_languages models_args = false /\
  is_Some (os_environ rules_world !! "QT_LOGGING_RULES") /\
  MODEL_TEST
    (info (snd (main_parsed (demo_platform ["launch.py"] models_args [] None)
                  models_args [] rules_world))) = true /\
  process_env (snd (main_parsed (demo_platform ["launch.py"] models_args [] None)
                      models_args [] rules_world)) !! "QT_LOGGING_RULES" =
    Some "*.debug=false" /\
  process_env (snd (main_parsed (demo_platform ["launch.py"] models_args [] None)
                      models_args [] demo_world)) !! "QT_LOGGING_RULES" =
    Some "qt.modeltest.debug=true".
Proof.
  assert (Hset : is_Some (os_environ rules_world !! "QT_LOGGING_RULES"))
    by (exists "*.debug=false"; reflexivity).
  destruct (modeltest_sets_flag_and_default_rules
              (demo_platform ["launch.py"] models_args [] None)
              models_args [] rules_world eq_refl eq_refl) as (Hmt & _ & Hkeep).
  destruct (modeltest_sets_flag_and_default_rules
              (demo_platform ["launch.py"] models_args [] None)
              models_args [] demo_world eq_refl eq_refl) as (_ & Henv & _).
  split; [reflexivity|]. split; [reflexivity|]. split; [exact Hset|].
  split; [exact Hmt|]. split.
  - rewrite (Hkeep Hset). reflexivity.
  - rewrite Henv. reflexivity.
Defined.

(** X6. Past the early exits, [info.WEB_BACKEND] at the end of [main] is the
    parsed [--web-backend] choice, one of [auto], [webkit], [webengine]:
    the prior value is always replaced, by [auto] when the option is not
    given. *)
Theorem web_backend_always_assigned
    (pf : Platform) (args : Namespace) (extra : list string) (w : World) :
  version args = false -> list_languages args = false ->
  WEB_BACKEND (info (snd (main_parsed pf args extra w))) =
    backend_str (web_backend args) /\
  In (WEB_BACKEND (info (snd (main_parsed pf args extra w))))
     ["auto"; "webkit"; "webengine"].
Proof.
  intros Hv Hl.
  destruct (main_parsed_settings pf args extra w Hv Hl) as (_ & Hwb & _).
  split; [exact Hwb|]. rewrite Hwb.
  destruct (web_backend args); simpl; tauto.
Qed.

Lemma web_backend_witness :
  version bad_lang_args = false /\ list_languages bad_lang_args = false /\
  WEB_BACKEND (info demo_world) = "auto" /\
  WEB_BACKEND
    (info (snd (main_parsed bad_lang_platform bad_lang_args [] demo_world))) =
    "webkit".
Proof.
  destruct (web_backend_always_assigned bad_lang_platform bad_lang_args []
              demo_world eq_refl eq_refl) as (Hwb & _).
  split; [reflexivity|]. split; [reflexivity|]. split; [reflexivity|].
  exact Hwb.
Defined.

Lemma start_app_keeps_language (c : option string) pf args extra :
  preserves (fun w => CMDLINE_LANGUAGE (info w) = c) (start_app pf args extra).
Proof. preserves_with same_field_leaf. Qed.

(** X7. Past the early exits, a non-empty [--lang] code that is in
    [info.SUPPORTED_LANGUAGES] ends up in [info.CMDLINE_LANGUAGE]; without
    [--lang] the setting keeps its prior value on every path. *)
Theorem supported_lang_is_assigned
    (pf : Platform) (args : Namespace) (extra : list string) (w : World) :
  (forall code,
     version args = false -> list_languages args = false ->
     lang args = Some code -> code <> "" ->
     code ∈ SUPPORTED_LANGUAGES (info w) ->
     CMDLINE_LANGUAGE (info (snd (main_parsed pf args extra w))) = Some code) /\
  (lang args = None ->
   CMDLINE_LANGUAGE (info (snd (main_parsed pf args extra w))) =
   CMDLINE_LANGUAGE (info w)).
Proof.
  split.
  - intros code Hv Hl Hlang Hne Hin.
    assert (Hacc : lang_rejected args w = false).
    { unfold lang_rejected. rewrite Hlang. simpl.
      by rewrite (bool_decide_eq_true_2 _ Hin), andb_false_r. }
    destruct (main_parsed_accepted pf args extra w Hv Hl Hacc)
      as (w2 & Hrun & _ & _ & _ & _ & _ & _ & Hcmd).
    rewrite Hrun. apply start_app_keeps_language.
    rewrite Hcmd, Hlang. simpl. by rewrite (truthy_str_nonempty code Hne).
  - intros Hnone.
    destruct (main_parsed_written_only_if_supported args w pf extra w)
      as [_ [Hsame | (c & Hc & _)]].
    + split; [reflexivity | by left].
    + exact Hsame.
    + rewrite Hnone in Hc. discriminate.
Qed.

Lemma supported_lang_witness :
  lang models_args = Some "es_ES" /\
  ("es_ES" ∈ SUPPORTED_LANGUAGES (info demo_world)) /\
  CMDLINE_LANGUAGE (info demo_world) = None /\
  CMDLINE_LANGUAGE
    (info (snd (main_parsed (demo_platform ["launch.py"] models_args [] None)
                  models_args [] demo_world))) = Some "es_ES".
Proof.
  assert (Hin : "es_ES" ∈ SUPPORTED_LANGUAGES (info demo_world))
    by (rewrite list_elem_of_In; simpl; tauto).
  assert (Hne : "es_ES" <> "") by discriminate.
  destruct (supported_lang_is_assigned
              (demo_platform ["launch.py"] models_args [] None)
              models_args [] demo_world) as (Hset & _).
  split; [reflexivity|]. split; [exact Hin|]. split; [reflexivity|].
  exact (Hset "es_ES" eq_refl eq_refl eq_refl Hne Hin).
Defined.

(** ** What the script only reads *)

Ltac constants_leaf :=
  let Hc := fresh "Hconst" in
  intros ? Hc; unfold same_constants in *; simpl; exact Hc.

Lemma main_same_constants w0 pf : preserves (same_constants w0) (main pf).
Proof.
  intros w H. rewrite main_run.
  destruct (sys_argv pf) as [|argv0 rest]; [exact H|].
  destruct (parse_known_args pf rest) as [e|[args extra]].
  - exact H.
  - revert w H. change (preserves (same_constants w0) (main_parsed pf args extra)).
    unfold main_parsed. preserves_with constants_leaf.
Qed.

(** X8. Whatever the command line and however the run ends, the script
    never writes [os.environ] (its only environment write goes through
    [os.putenv], which [os.getenv] does not see), nor
    [info.SETUP['version']], [info.PATH] or [info.SUPPORTED_LANGUAGES]. *)
Theorem launch_never_writes_environ_or_constants (pf : Platform) (w : World) :
  os_environ (snd (launch pf w)) = os_environ w /\
  SETUP_version (info (snd (launch pf w))) = SETUP_version (info w) /\
  PATH (info (snd (launch pf w))) = PATH (info w) /\
  SUPPORTED_LANGUAGES (info (snd (launch pf w))) = SUPPORTED_LANGUAGES (info w).
Proof.
  assert (H0 : same_constants w w) by (by repeat split).
  pose proof (main_same_constants w pf) as Hmain.
  assert (Hl : preserves (same_constants w) (launch pf)).
  { unfold launch, module_level. preserves_with constants_leaf. }
  exact (Hl w H0).
Qed.

(** ** A [--path] entry that cannot be resolved (lines 155-157) *)

(** X9. When resolving a [--path] entry [p] raises [TypeError], in a run
    past the early exits: the line [Bad path p: <message>] is printed, with
    the entry as given; nothing is inserted for it; and the entries after
    it are still processed, each with its own report. *)
Theorem unresolvable_path_reported_and_skipped
    (pf : Platform) (args : Namespace) (extra : list string) (w : World)
    (before after : list string) (p m : string) :
  version args = false -> list_languages args = false ->
  py_path args = Some (before ++ p :: after) ->
  realpath pf p = inl m ->
  In ("Bad path " +:+ p +:+ ": " +:+ m)
     (stdout (snd (main_parsed pf args extra w))) /\
  sys_path (snd (main_parsed pf args extra w)) =
    rev (inserted_paths pf after) ++ rev (inserted_paths pf before) ++ sys_path w /\
  (forall q, In q after ->
     In (path_report pf q) (stdout (snd (main_parsed pf args extra w)))).
Proof.
  intros Hv Hl Hp Hr. repeat split.
  - replace ("Bad path " +:+ p +:+ ": " +:+ m) with (path_report pf p)
      by (unfold path_report; by rewrite Hr).
    apply main_parsed_reports; try assumption.
    rewrite Hp. simpl. apply in_or_app. right. by left.
  - rewrite (main_parsed_sys_path pf args extra w Hv Hl), Hp. simpl default.
    rewrite inserted_paths_app. simpl. rewrite Hr.
    rewrite rev_app_distr. by rewrite <- app_assoc.
  - intros q Hq. apply main_parsed_reports; try assumption.
    rewrite Hp. simpl. apply in_or_app. right. by right.
Qed.

Lemma unresolvable_path_witness :
  py_path (with_py_path ["bad"; "/opt/effects"] no_options) =
    Some ([] ++ "bad" :: ["/opt/effects"]) /\
  realpath typeerror_platform "bad" =
    inl "expected str, bytes or os.PathLike object" /\
  In "Bad path bad: expected str, bytes or os.PathLike object"
     (stdout (snd (main_parsed typeerror_platform
                     (with_py_path ["bad"; "/opt/effects"] no_options) []
                     demo_world))) /\
  sys_path (snd (main_parsed typeerror_platform
                   (with_py_path ["bad"; "/opt/effects"] no_options) []
                   demo_world)) = "/opt/effects" :: sys_path demo_world.
Proof.
  destruct (unresolvable_path_reported_and_skipped typeerror_platform
              (with_py_path ["bad"; "/opt/effects"] no_options) [] demo_world
              [] ["/opt/effects"] "bad"
              "expected str, bytes or os.PathLike object"
              eq_refl eq_refl eq_refl eq_refl) as (Hline & Hpath & _).
  split; [reflexivity|]. split; [reflexivity|]. split; [exact Hline|].
  exact Hpath.
Defined.

(** ** The module level (lines 43-83) *)

(** The calls lines 50-70 make: one per Qt attribute that exists. *)
Lemma module_level_run pf w :
  module_level pf w =
  let attrs :=
    (if bool_decide ("AA_ShareOpenGLContexts" ∈ qt_attributes pf)
     then [setAttribute "AA_ShareOpenGLContexts"] else []) ++
    (if bool_decide ("AA_EnableHighDpiScaling" ∈ qt_attributes pf)
     then [setAttribute "AA_EnableHighDpiScaling"] else []) in
  let w1 := with_calls (fun cs => cs ++ attrs) w in
  if import_classes pf (sys_path w) then
    (inr tt, with_app None (with_calls (fun cs => cs ++ [init_sentry_tracing]) w1))
  else
    match OPENSHOT_PATH pf with
    | None => (inl (ImportError "No module named 'openshot_qt'"), w1)
    | Some d =>
        let w2 := with_sys_path (fun sp => sp ++ [d]) w1 in
        if import_classes pf (sys_path w ++ [d]) then
          (inr tt, with_app None (with_calls (fun cs => cs ++ [init_sentry_tracing]) w2))
        else (inl (ImportError "No module named 'classes'"), w2)
    end.
Proof.
  cbv beta iota zeta delta [module_level try_except bind QApplication_setAttribute
    from_classes_import import_or_raise call pass modify get ret raise].
  destruct (bool_decide ("AA_ShareOpenGLContexts" ∈ qt_attributes pf));
    destruct (has_OpenGL pf); destruct (has_QtWebEngineWidgets pf);
    destruct (bool_decide ("AA_EnableHighDpiScaling" ∈ qt_attributes pf));
    simpl;
    destruct (import_classes pf (sys_path w)); simpl;
    try (destruct (OPENSHOT_PATH pf) as [d|]; simpl;
         [destruct (import_classes pf (sys_path w ++ [d])); simpl|]);
    destruct w; unfold with_app, with_calls, with_sys_path; simpl;
    rewrite ?app_nil_r, <- ?app_assoc; reflexivity.
Qed.

(** X10. The module level completes exactly when the [classes] package is
    found, on [sys.path] as it is or after the install directory has been
    appended; otherwise it ends in [ImportError] before the tracing hook
    is called. A missing OpenGL module, a missing QtWebEngineWidgets
    module or a missing Qt attribute never stops it. When it completes,
    the global [app] is [None]. *)
Theorem module_level_completes_iff_classes_found (pf : Platform) (w : World) :
  (classes_reachable pf w = true ->
   fst (module_level pf w) = inr tt /\ app (snd (module_level pf w)) = None) /\
  (classes_reachable pf w = false ->
   (exists m, fst (module_level pf w) = inl (ImportError m)) /\
   tracing_calls (calls (snd (module_level pf w))) = tracing_calls (calls w)).
Proof.
  rewrite module_level_run. unfold classes_reachable. cbv zeta.
  destruct (import_classes pf (sys_path w)); simpl.
  - split; [by split | discriminate].
  - destruct (OPENSHOT_PATH pf) as [d|].
    + destruct (import_classes pf (sys_path w ++ [d])); simpl.
      * split; [by split | discriminate].
      * split; [discriminate|]. intros _. split; [by eexists|].
        rewrite tracing_calls_app.
        destruct (bool_decide ("AA_ShareOpenGLContexts" ∈ qt_attributes pf));
          destruct (bool_decide ("AA_EnableHighDpiScaling" ∈ qt_attributes pf));
          cbn; lia.
    + split; [discriminate|]. intros _. split; [by eexists|]. simpl.
      rewrite tracing_calls_app.
      destruct (bool_decide ("AA_ShareOpenGLContexts" ∈ qt_attributes pf));
        destruct (bool_decide ("AA_EnableHighDpiScaling" ∈ qt_attributes pf));
        cbn; lia.
Qed.

Lemma module_level_completes_witness :
  classes_reachable checkout_platform demo_world = true /\
  import_classes checkout_platform (sys_path demo_world) = false /\
  has_OpenGL checkout_platform = false /\
  fst (module_level checkout_platform demo_world) = inr tt /\
  app (snd (module_level checkout_platform demo_world)) = None.
Proof.
  destruct (module_level_completes_iff_classes_found checkout_platform demo_world)
    as (Hok & _).
  destruct (Hok eq_refl) as (Hfst & Happ).
  split; [reflexivity|]. split; [reflexivity|]. split; [reflexivity|].
  split; [exact Hfst | exact Happ].
Defined.

(** X11. The module level leaves [sys.path] alone when [classes] is found
    on it; otherwise, when the [openshot_qt] package exists, it appends the
    install directory at the end, the lowest search priority, whether or
    not the second import then succeeds. It never removes or reorders an
    entry. *)
Theorem module_level_appends_install_dir_only_as_fallback
    (pf : Platform) (w : World) :
  sys_path (snd (module_level pf w)) =
  if import_classes pf (sys_path w) then sys_path w
  else match OPENSHOT_PATH pf with
       | Some d => sys_path w ++ [d]
       | None => sys_path w
       end.
Proof.
  rewrite module_level_run. cbv zeta.
  destruct (import_classes pf (sys_path w)); [reflexivity|].
  destruct (OPENSHOT_PATH pf) as [d|]; [|reflexivity].
  destruct (import_classes pf (sys_path w ++ [d])); reflexivity.
Qed.

(** ** Construction failure, in full (lines 176-198) *)

(** Past the checks, [main] is lines 182-198 run in a world that differs
    from the configured one by the module-origin line only. *)
Lemma main_parsed_reaches_create_app pf args extra w argv0 rest :
  version args = false -> list_languages args = false ->
  lang_rejected args w = false -> sys_argv pf = argv0 :: rest ->
  exists w3,
    main_parsed pf args extra w =
      (create_app pf ([argv0] ++ extra ++ remain args) ;;; run_app pf) w3 /\
    calls w3 = calls w /\ app w3 = app w /\
    SETUP_version (info w3) = SETUP_version (info w).
Proof.
  intros Hv Hl Hlang Hargv.
  destruct (main_parsed_accepted pf args extra w Hv Hl Hlang)
    as (w2 & Hrun & Hcalls & Happ & Hver & _).
  exists (snd (print_module_origin w2)). split; [|by repeat split].
  rewrite Hrun. unfold start_app.
  rewrite (bind_ok print_module_origin _ w2 tt eq_refl).
  set (w3 := snd (print_module_origin w2)).
  assert (Hb : build_argv pf args extra w3 =
               (inr ([argv0] ++ extra ++ remain args), w3)).
  { unfold build_argv. rewrite Hargv. reflexivity. }
  rewrite (bind_ok _ _ w3 ([argv0] ++ extra ++ remain args)) by (by rewrite Hb).
  by rewrite Hb.
Qed.

(** Lines 182-198 when the constructor raises. *)
Lemma create_and_run_app_failing pf argv e w :
  OpenShotApp_raises pf argv = Some e ->
  (create_app pf argv ;;; run_app pf) w =
  if is_Exception e then
    match app w with
    | None =>
        (inl (AttributeError "'NoneType' object has no attribute 'show_errors'"),
         with_calls (fun cs => cs ++ [OpenShotApp argv]) w)
    | Some h =>
        (inl (SystemExit (Some (exec_result pf h))),
         with_calls
           (fun cs => cs ++ [OpenShotApp argv; show_errors;
                             setApplicationName "openshot";
                             setApplicationVersion (SETUP_version (info w))] ++
                      (if has_setDesktopFile pf
                       then [setDesktopFile "org.openshot.OpenShot"] else []) ++
                      [gui; exec_]) w)
    end
  else (inl e, with_calls (fun cs => cs ++ [OpenShotApp argv]) w).
Proof.
  intros Hr.
  cbv beta iota delta [create_app run_app try_except new_OpenShotApp bind call
    modify app_method get ret raise pass sys_exit].
  simpl. rewrite Hr. simpl.
  destruct (is_Exception e); simpl; [|reflexivity].
  destruct (app w) as [h|] eqn:Ha; simpl; [|reflexivity].
  destruct (has_setDesktopFile pf); destruct w; unfold with_calls; simpl in *;
    subst; simpl; rewrite <- ?app_assoc; reflexivity.
Qed.

(** X12. In a script run whose module level completes, and which gets past
    the early exits and the language check: whenever the constructor raises
    an [Exception], the run ends in [AttributeError] (the handler calls
    [show_errors] on [None], as the module level has just set [app] to
    [None]); [show_errors] is never entered and no identity metadata is
    set: the constructor call is the last call made. *)
Theorem script_construction_failure_ends_in_attribute_error
    (pf : Platform) (w w1 : World) (args : Namespace) (extra : list string)
    (argv0 : string) (rest : list string) (e : exn) :
  module_level pf w = (inr tt, w1) ->
  parse_known_args pf (tail (sys_argv pf)) = inr (args, extra) ->
  version args = false -> list_languages args = false ->
  lang_rejected args w1 = false -> sys_argv pf = argv0 :: rest ->
  OpenShotApp_raises pf ([argv0] ++ extra ++ remain args) = Some e ->
  is_Exception e = true ->
  fst (launch pf w) =
    inl (AttributeError "'NoneType' object has no attribute 'show_errors'") /\
  calls (snd (launch pf w)) =
    calls w1 ++ [OpenShotApp ([argv0] ++ extra ++ remain args)] /\
  app (snd (launch pf w)) = None.
Proof.
  intros Hm Hp Hv Hl Hlang Hargv Hr He.
  assert (Happ1 : app w1 = None).
  { revert Hm. rewrite module_level_run. cbv zeta.
    destruct (import_classes pf (sys_path w)).
    - intros Hm. by injection Hm as <-.
    - destruct (OPENSHOT_PATH pf) as [d|]; [|discriminate].
      destruct (import_classes pf (sys_path w ++ [d])); [|discriminate].
      intros Hm. by injection Hm as <-. }
  assert (Hlaunch : launch pf w = main_parsed pf args extra w1).
  { unfold launch. rewrite (bind_ok _ _ w tt) by (by rewrite Hm).
    rewrite Hm. simpl snd. rewrite main_run.
    rewrite Hargv in Hp |- *. simpl in Hp. by rewrite Hp. }
  destruct (main_parsed_reaches_create_app pf args extra w1 argv0 rest
              Hv Hl Hlang Hargv) as (w3 & Hrun & Hcalls & Happ & _).
  rewrite Hlaunch, Hrun, (create_and_run_app_failing pf _ e w3 Hr), He.
  rewrite Happ, Happ1. simpl. by rewrite Hcalls, Happ, Happ1.
Qed.

Lemma script_construction_failure_witness :
  module_level failing_platform demo_world =
    (inr tt, snd (module_level failing_platform demo_world)) /\
  OpenShotApp_raises failing_platform (["launch.py"] ++ [] ++ remain no_options) =
    Some (RuntimeError "could not connect to display") /\
  fst (launch failing_platform demo_world) =
    inl (AttributeError "'NoneType' object has no attribute 'show_errors'") /\
  app (snd (launch failing_platform demo_world)) = None.
Proof.
  destruct (script_construction_failure_ends_in_attribute_error
              failing_platform demo_world _ no_options [] "launch.py" []
              (RuntimeError "could not connect to display")
              eq_refl eq_refl eq_refl eq_refl eq_refl eq_refl eq_refl eq_refl)
    as (Hexn & _ & Happ).
  split; [reflexivity|]. split; [reflexivity|]. split; [exact Hexn|].
  exact Happ.
Defined.

(** X13. A constructor that leaves by [SystemExit] is not intercepted:
    [except Exception] does not catch it, so past the checks [main] ends
    with that very [SystemExit], [show_errors] is not called and the
    global [app] keeps its value. *)
Theorem constructor_system_exit_propagates
    (pf : Platform) (args : Namespace) (extra : list string) (w : World)
    (argv0 : string) (rest : list string) (code : option Z) :
  version args = false -> list_languages args = false ->
  lang_rejected args w = false -> sys_argv pf = argv0 :: rest ->
  OpenShotApp_raises pf ([argv0] ++ extra ++ remain args) =
    Some (SystemExit code) ->
  fst (main_parsed pf args extra w) = inl (SystemExit code) /\
  calls (snd (main_parsed pf args extra w)) =
    calls w ++ [OpenShotApp ([argv0] ++ extra ++ remain args)] /\
  app (snd (main_parsed pf args extra w)) = app w.
Proof.
  intros Hv Hl Hlang Hargv Hr.
  destruct (main_parsed_reaches_create_app pf args extra w argv0 rest
              Hv Hl Hlang Hargv) as (w3 & Hrun & Hcalls & Happ & _).
  rewrite Hrun, (create_and_run_app_failing pf _ _ w3 Hr). simpl.
  by rewrite Hcalls, Happ.
Qed.

Lemma constructor_system_exit_witness :
  sys_argv (demo_platform ["launch.py"] no_options [] (Some (SystemExit (Some 7)))) =
    "launch.py" :: [] /\
  OpenShotApp_raises
    (demo_platform ["launch.py"] no_options [] (Some (SystemExit (Some 7))))
    (["launch.py"] ++ [] ++ remain no_options) = Some (SystemExit (Some 7)) /\
  fst (main_parsed
         (demo_platform ["launch.py"] no_options [] (Some (SystemExit (Some 7))))
         no_options [] demo_world) = inl (SystemExit (Some 7)).
Proof.
  destruct (constructor_system_exit_propagates
              (demo_platform ["launch.py"] no_options [] (Some (SystemExit (Some 7))))
              no_options [] demo_world "launch.py" [] (Some 7)
              eq_refl eq_refl eq_refl eq_refl eq_refl) as (Hexit & _).
  split; [reflexivity|]. split; [reflexivity|]. exact Hexit.
Defined.

(** X14. When [main] is entered while the global [app] already holds an
    application object and the constructor raises an [Exception],
    [show_errors] is called on that earlier object and startup goes on with
    it: identity metadata is set on it, its event loop is run and its
    return value is the exit code. *)
Theorem construction_failure_falls_back_on_earlier_app
    (pf : Platform) (args : Namespace) (extra : list string) (w : World)
    (argv0 : string) (rest : list string) (e : exn) (h : App) :
  version args = false -> list_languages args = false ->
  lang_rejected args w = false -> sys_argv pf = argv0 :: rest ->
  OpenShotApp_raises pf ([argv0] ++ extra ++ remain args) = Some e ->
  is_Exception e = true -> app w = Some h ->
  fst (main_parsed pf args extra w) = inl (SystemExit (Some (exec_result pf h))) /\
  app (snd (main_parsed pf args extra w)) = Some h /\
  calls (snd (main_parsed pf args extra w)) =
    calls w ++
    [OpenShotApp ([argv0] ++ extra ++ remain args); show_errors;
     setApplicationName "openshot";
     setApplicationVersion (SETUP_version (info w))] ++
    (if has_setDesktopFile pf
     then [setDesktopFile "org.openshot.OpenShot"] else []) ++
    [gui; exec_].
Proof.
  intros Hv Hl Hlang Hargv Hr He Ha.
  destruct (main_parsed_reaches_create_app pf args extra w argv0 rest
              Hv Hl Hlang Hargv) as (w3 & Hrun & Hcalls & Happ & Hver).
  rewrite Hrun, (create_and_run_app_failing pf _ e w3 Hr), He.
  rewrite Happ, Ha. simpl. by rewrite Hcalls, Happ, Ha, Hver.
Qed.

Lemma construction_failure_fallback_witness :
  app stale_world = Some {| app_argv := ["launch.py"; "first.osp"] |} /\
  is_Exception (RuntimeError "could not connect to display") = true /\
  fst (main_parsed failing_platform no_options [] stale_world) =
    inl (SystemExit (Some 0)) /\
  app (snd (main_parsed failing_platform no_options [] stale_world)) =
    Some {| app_argv := ["launch.py"; "first.osp"] |}.
Proof.
  destruct (construction_failure_falls_back_on_earlier_app failing_platform
              no_options [] stale_world "launch.py" []
              (RuntimeError "could not connect to display")
              {| app_argv := ["launch.py"; "first.osp"] |}
              eq_refl eq_refl eq_refl eq_refl eq_refl eq_refl eq_refl)
    as (Hexit & Happ & _).
  split; [reflexivity|]. split; [reflexivity|]. split; [exact Hexit|].
  exact Happ.
Defined.

(** ** How a run ends *)

Lemma never_returns_bind {A B} (m : M A) (k : A -> M B) :
  (forall a, never_returns (k a)) -> never_returns (bind m k).
Proof.
  intros Hk w. unfold bind. destruct (m w) as [[e|a] w']; simpl.
  - by exists e.
  - apply Hk.
Qed.

Lemma never_returns_raise {A} (e : exn) : never_returns (@raise A e).
Proof. intros w. by exists e. Qed.

Lemma run_app_never_returns pf : never_returns (run_app pf).
Proof.
  unfold run_app. repeat (apply never_returns_bind; intros ?).
  apply never_returns_raise.
Qed.

Lemma main_parsed_never_returns pf args extra :
  never_returns (main_parsed pf args extra).
Proof.
  unfold main_parsed. do 7 (apply never_returns_bind; intros ?).
  unfold start_app. do 3 (apply never_returns_bind; intros ?).
  apply run_app_never_returns.
Qed.

(** X15. [main] never returns to its caller: on every platform and from
    every world it ends by raising, either [SystemExit] (from [sys.exit] or
    from argparse) or an error. The same holds of the whole script. *)
Theorem main_never_returns (pf : Platform) (w : World) :
  (exists e, fst (main pf w) = inl e) /\
  (exists e, fst (launch pf w) = inl e).
Proof.
  assert (Hmain : never_returns (main pf)).
  { intros w'. rewrite main_run.
    destruct (sys_argv pf) as [|argv0 rest]; [by eexists|].
    destruct (parse_known_args pf rest) as [e|[args extra]].
    - by exists e.
    - apply main_parsed_never_returns. }
  split; [apply Hmain|].
  unfold launch. apply never_returns_bind. intros _. exact Hmain.
Qed.



(** ** Calls to the collaborators *)

Ltac tracing_leaf :=
  let Ht := fresh "Htr" in
  intros ? Ht; simpl;
  first [ exact Ht
        | rewrite tracing_calls_app, Ht; cbn; lia ].

Lemma main_keeps_tracing_calls (n : nat) pf :
  preserves (fun w => tracing_calls (calls w) = n) (main pf).
Proof.
  intros w H. rewrite main_run.
  destruct (sys_argv pf) as [|argv0 rest]; [exact H|].
  destruct (parse_known_args pf rest) as [e|[args extra]].
  - exact H.
  - revert w H.
    change (preserves (fun w => tracing_calls (calls w) = n) (main_parsed pf args extra)).
    unfold main_parsed. preserves_with tracing_leaf.
Qed.

(** X17. In every script run whose module level completes, the tracing
    hook is called exactly once, whatever the command line and however
    [main] ends: [main] itself never calls it. *)
Theorem tracing_hook_called_exactly_once (pf : Platform) (w w1 : World) :
  module_level pf w = (inr tt, w1) ->
  tracing_calls (calls (snd (launch pf w))) = S (tracing_calls (calls w)) /\
  tracing_calls (calls (snd (main pf w1))) = tracing_calls (calls w1).
Proof.
  intros Hm.
  assert (Hmain : tracing_calls (calls (snd (main pf w1))) = tracing_calls (calls w1))
    by (by apply main_keeps_tracing_calls).
  split; [|exact Hmain].
  unfold launch. rewrite (bind_ok _ _ w tt) by (by rewrite Hm).
  rewrite Hm. simpl snd. rewrite Hmain.
  exact (module_level_traces_once pf w w1 Hm).
Qed.

Lemma tracing_hook_once_witness :
  module_level bad_lang_platform demo_world =
    (inr tt, snd (module_level bad_lang_platform demo_world)) /\
  fst (launch bad_lang_platform demo_world) = inl (SystemExit (Some (-1))) /\
  tracing_calls (calls (snd (launch bad_lang_platform demo_world))) = 1%nat.
Proof.
  destruct (tracing_hook_called_exactly_once bad_lang_platform demo_world _ eq_refl)
    as (Honce & _).
  split; [reflexivity|]. split; [reflexivity|]. exact Honce.
Defined.

Lemma constructions_app (a b : list Call) :
  constructions (a ++ b) = (constructions a + constructions b)%nat.
Proof. unfold constructions. by rewrite List.filter_app, length_app. Qed.

Ltac constructions_leaf :=
  let Hc := fresh "Hcons" in
  intros ? Hc; simpl;
  first [ exact Hc
        | rewrite constructions_app, Hc; cbn; lia ].

Lemma create_app_constructs_once pf argv w :
  constructions (calls (snd (create_app pf argv w))) = S (constructions (calls w)).
Proof.
  cbv beta iota delta [create_app try_except new_OpenShotApp bind call modify
    app_method get ret raise].
  simpl.
  destruct (OpenShotApp_raises pf argv) as [e|]; simpl;
    [destruct (is_Exception e); simpl; [destruct (app w); simpl|]|];
    rewrite ?constructions_app; cbn; lia.
Qed.

Lemma bind_pre_post {A B} (J Q : World -> Prop) (m : M A) (k : A -> M B) :
  preserves J m -> (forall w, J w -> Q w) ->
  (forall a w, J w -> Q (snd (k a w))) ->
  forall w, J w -> Q (snd (bind m k w)).
Proof.
  intros Hm HJQ Hk w HJ. unfold bind. specialize (Hm w HJ).
  destruct (m w) as [[e|a] w']; simpl in *; [by apply HJQ | by apply Hk].
Qed.

Lemma start_app_constructs_once (n : nat) pf args extra w :
  constructions (calls w) = n ->
  constructions (calls (snd (start_app pf args extra w))) = n \/
  constructions (calls (snd (start_app pf args extra w))) = S n.
Proof.
  revert w. unfold start_app.
  apply (bind_pre_post (fun w => constructions (calls w) = n)
           (fun w => constructions (calls w) = n \/ constructions (calls w) = S n)).
  - preserves_with constructions_leaf.
  - intros w H. by left.
  - intros _.
    apply (bind_pre_post (fun w => constructions (calls w) = n)
             (fun w => constructions (calls w) = n \/ constructions (calls w) = S n)).
    + preserves_with constructions_leaf.
    + intros w H. by left.
    + intros argv w H. right.
      apply (bind_post (fun w' => constructions (calls w') = S n)).
      * by rewrite create_app_constructs_once, H.
      * intros _. preserves_with constructions_leaf.
Qed.

Lemma main_parsed_constructs_once (n : nat) pf args extra w :
  constructions (calls w) = n ->
  constructions (calls (snd (main_parsed pf args extra w))) = n \/
  constructions (calls (snd (main_parsed pf args extra w))) = S n.
Proof.
  revert w. unfold main_parsed.
  do 7 (apply (bind_pre_post (fun w => constructions (calls w) = n)
                 (fun w => constructions (calls w) = n \/
                           constructions (calls w) = S n));
        [ preserves_with constructions_leaf | intros w H; by left | intros _ ]).
  intros w H. by apply start_app_constructs_once.
Qed.

(** X18. One call of [main] calls the constructor at most once, on every
    platform and command line and however it ends; on a version query, a
    language listing or an unsupported language it does not call it at
    all. *)
Theorem main_constructs_at_most_once
    (pf : Platform) (args : Namespace) (extra : list string) (w : World) :
  (constructions (calls (snd (main_parsed pf args extra w))) =
     constructions (calls w) \/
   constructions (calls (snd (main_parsed pf args extra w))) =
     S (constructions (calls w))) /\
  (version args = true \/ list_languages args = true \/
   (version args = false /\ list_languages args = false /\
    lang_rejected args w = true) ->
   constructions (calls (snd (main_parsed pf args extra w))) =
     constructions (calls w)).
Proof.
  split; [by apply main_parsed_constructs_once|].
  intros [Hv | [Hl | (Hv & Hl & Hrej)]].
  - by rewrite (main_parsed_version pf args extra w Hv).
  - destruct (version args) eqn:Hv.
    + by rewrite (main_parsed_version pf args extra w Hv).
    + rewrite (main_parsed_listing pf args extra w Hv Hl). simpl.
      unfold set_log_levels, bind.
      destruct (debug args), (debug_file args), (debug_console args); simpl;
        rewrite constructions_app; cbn; lia.
  - rewrite (main_parsed_configured pf args extra w Hv Hl).
    destruct (configure_frame pf args w) as (_ & _ & Hcalls & _ & _ & Hsup & _).
    assert (Hexit : exists e, fst (apply_lang args (snd (configure pf args w))) = inl e /\
              calls (snd (apply_lang args (snd (configure pf args w)))) = calls w).
    { unfold lang_rejected in Hrej. unfold apply_lang.
      apply andb_true_iff in Hrej as [Ht Hn]. rewrite Ht. simpl.
      unfold bind. simpl. rewrite Hsup.
      apply negb_true_iff in Hn. rewrite Hn. simpl. by eexists. }
    destruct Hexit as (e & He & Hc).
    rewrite (bind_err _ _ _ e He). simpl. by rewrite Hc.
Qed.

Lemma main_constructs_at_most_once_witness :
  (version bad_lang_args = false /\ list_languages bad_lang_args = false /\
   lang_rejected bad_lang_args demo_world = true) /\
  constructions
    (calls (snd (main_parsed bad_lang_platform bad_lang_args [] demo_world))) =
  constructions (calls demo_world).
Proof.
  assert (H : version bad_lang_args = false /\ list_languages bad_lang_args = false /\
              lang_rejected bad_lang_args demo_world = true)
    by (repeat split; reflexivity).
  destruct (main_constructs_at_most_once bad_lang_platform bad_lang_args []
              demo_world) as (_ & Hnone).
  split; [exact H|]. apply Hnone. right. right. exact H.
Defined.

(** ** Order of the output *)

Ltac output_prefix_leaf :=
  let later := fresh "later" in
  let Hpre := fresh "Hpre" in
  intros ? [later Hpre]; simpl;
  first [ exists later; exact Hpre
        | eexists (later ++ [_]); rewrite Hpre; by rewrite <- app_assoc ].

Lemma startup_keeps_output_prefix (out : list string) pf args extra :
  preserves (fun w => exists later, stdout w = out ++ later)
    (apply_lang args ;;; start_app pf args extra).
Proof. preserves_with output_prefix_leaf. Qed.

(** X19. Past the early exits, the first thing [main] prints is exactly one
    report per [--path] entry, in command-line order (added, missing or
    bad); whatever else it prints (the unsupported-language diagnostic or
    the module-origin line) comes after them, and nothing printed before
    [main] is lost. *)
Theorem path_reports_come_first_one_per_entry
    (pf : Platform) (args : Namespace) (extra : list string) (w : World) :
  version args = false -> list_languages args = false ->
  exists later,
    stdout (snd (main_parsed pf args extra w)) =
    stdout w ++ map (path_report pf) (default [] (py_path args)) ++ later.
Proof.
  intros Hv Hl. rewrite (main_parsed_configured pf args extra w Hv Hl).
  destruct (configure_frame pf args w) as (_ & Hout & _).
  destruct (startup_keeps_output_prefix
              (stdout w ++ map (path_report pf) (default [] (py_path args)))
              pf args extra (snd (configure pf args w)))
    as [later Hlater].
  - exists []. by rewrite app_nil_r.
  - exists later. by rewrite Hlater, <- app_assoc.
Qed.

Lemma path_reports_come_first_witness :
  version missing_path_args = false /\ list_languages missing_path_args = false /\
  exists later,
    stdout (snd (main_parsed missing_path_platform missing_path_args [] demo_world)) =
    ["/home/user/mods does not exist"; "Added /opt/effects to PYTHONPATH"] ++ later.
Proof.
  destruct (path_reports_come_first_one_per_entry missing_path_platform
              missing_path_args [] demo_world eq_refl eq_refl) as [later Hout].
  split; [reflexivity|]. split; [reflexivity|].
  exists later. exact Hout.
Defined.
